(** * Server-side request pipeline: App orchestrator and endpoint invoker

    A shallow embedding of
    - [packages/astro/src/core/app/index.ts]   (class [App]: [match], [render],
      [#renderPage], [#callEndpoint]), and
    - [packages/astro/src/core/endpoint/index.ts] ([createAPIContext], [call],
      [isRedirect], [throwIfRedirectNotAllowed]),
    followed by the properties of the pipeline that the specification states.

    JavaScript objects that are mutated in place (the inbound [Request] with its
    symbol-keyed properties, the console) live in an explicit [World]; [async]
    functions are sequential computations in a state-and-exception monad. *)

From Stdlib Require Import ZArith NArith String Ascii List Bool Lia.
From stdpp Require Import base option gmap strings list pretty.

Set Warnings "-register-all".

Local Open Scope Z_scope.
Local Open Scope string_scope.

(** ** JavaScript values *)

(** The values user code can store in [locals] or attach to a request.
    Functions are opaque references; numbers are restricted to integers. *)
Inductive JSValue : Type :=
| JSUndefined
| JSNull
| JSBool (b : bool)
| JSNumber (n : Z)
| JSString (s : string)
| JSFunction (ref : nat)
| JSArray (items : list JSValue)
| JSObject (fields : list (string * JSValue)).

(** The [typeof] operator.  Note the historical [typeof null === 'object']. *)
Definition typeof (v : JSValue) : string :=
  match v with
  | JSUndefined => "undefined"
  | JSNull => "object"
  | JSBool _ => "boolean"
  | JSNumber _ => "number"
  | JSString _ => "string"
  | JSFunction _ => "function"
  | JSArray _ => "object"
  | JSObject _ => "object"
  end.

(** The primitive values of the language; [null] is one of them. *)
Definition is_primitive (v : JSValue) : bool :=
  match v with
  | JSUndefined | JSNull | JSBool _ | JSNumber _ | JSString _ => true
  | _ => false
  end.

(** Objects that hold data: object literals and arrays.  Functions, which
    [typeof] keeps apart, are in neither class. *)
Definition is_object (v : JSValue) : bool :=
  match v with
  | JSArray _ | JSObject _ => true
  | _ => false
  end.

(** Truthiness of an optional string ([if (adapterName)], [site ? .. : ..]):
    [undefined] and the empty string are falsy. *)
Definition truthy_string (s : option string) : bool :=
  match s with
  | Some (String _ _) => true
  | _ => false
  end.

(** ** Strings, UTF-16 and UTF-8 *)

(** Paths, header names and header values are ASCII and held as [string].
    A body handed to [TextEncoder] is an arbitrary JavaScript string: a
    sequence of UTF-16 code units. *)
Definition CodeUnit := N.
Definition JSText := list CodeUnit.

Definition text_of_ascii (s : string) : JSText :=
  map (fun c => N_of_ascii c) (list_ascii_of_string s).

Definition is_high_surrogate (c : N) : bool := ((55296 <=? c) && (c <=? 56319))%N.
Definition is_low_surrogate (c : N) : bool := ((56320 <=? c) && (c <=? 57343))%N.

(** UTF-8 bytes of one Unicode scalar value. *)
Definition utf8_of_code_point (cp : N) : list N :=
  (if cp <? 128 then [cp]
   else if cp <? 2048 then
     [192 + N.shiftr cp 6; 128 + N.land cp 63]
   else if cp <? 65536 then
     [224 + N.shiftr cp 12; 128 + N.land (N.shiftr cp 6) 63; 128 + N.land cp 63]
   else
     [240 + N.shiftr cp 18; 128 + N.land (N.shiftr cp 12) 63;
      128 + N.land (N.shiftr cp 6) 63; 128 + N.land cp 63])%N.

(** [new TextEncoder().encode(s)]: surrogate pairs are combined, a lone
    surrogate is replaced by U+FFFD. *)
Fixpoint TextEncoder_encode (s : JSText) : list N :=
  match s with
  | [] => []
  | c :: rest =>
      if is_high_surrogate c then
        match rest with
        | d :: rest' =>
            if is_low_surrogate d then
              utf8_of_code_point (65536 + N.shiftl (c - 55296) 10 + (d - 56320))%N
                ++ TextEncoder_encode rest'
            else utf8_of_code_point 65533%N ++ TextEncoder_encode rest
        | [] => utf8_of_code_point 65533%N
        end
      else if is_low_surrogate c then
        utf8_of_code_point 65533%N ++ TextEncoder_encode rest
      else utf8_of_code_point c ++ TextEncoder_encode rest
  end.

(** [Number.prototype.toString] on a non-negative integer. *)
Definition Number_toString (n : nat) : string := pretty n.

(** [String.prototype.startsWith] and [String.prototype.slice(k)]. *)
Definition startsWith (s p : string) : bool := String.prefix p s.
Definition slice (s : string) (k : nat) : string :=
  String.substring k (String.length s - k) s.

Definition lower_ascii (c : ascii) : ascii :=
  let n := nat_of_ascii c in
  if ((65 <=? n) && (n <=? 90))%nat then ascii_of_nat (n + 32) else c.

Fixpoint lowercase (s : string) : string :=
  match s with
  | EmptyString => EmptyString
  | String c s' => String (lower_ascii c) (lowercase s')
  end.

(** ** Data model *)

Record URL := { origin : string; pathname : string; search : string }.

(** [new URL(path, base)] for an absolute [path]. *)
Definition URL_resolve (path : string) (base : URL) : URL :=
  {| origin := origin base; pathname := path; search := "" |}.

(** A [Request] is an object reference; what is attached to it under
    [Symbol.for('astro.clientAddress')], [Symbol.for('astro.locals')] and
    [Symbol.for('astro.responseSent')] is kept in the [World]. *)
Record Request := { request_id : nat; url : URL }.

Record RequestProps := {
  clientAddressSymbol : option JSValue;
  clientLocalsSymbol : option JSValue;
  responseSentSymbol : option JSValue
}.

Definition no_props : RequestProps :=
  {| clientAddressSymbol := None; clientLocalsSymbol := None; responseSentSymbol := None |}.

(** [Headers]: names are stored in lower case. *)
Abbreviation Headers := (list (string * string)) (only parsing).

Definition join_values (vs : list string) : string :=
  match vs with
  | [] => ""
  | v :: rest => fold_left (fun acc x => acc +:+ ", " +:+ x) rest v
  end.

Definition Headers_get (name : string) (h : Headers) : option string :=
  match filter (fun kv => fst kv = lowercase name) h with
  | [] => None
  | kvs => Some (join_values (map snd kvs))
  end.

Definition Headers_set (name value : string) (h : Headers) : Headers :=
  (filter (fun kv => fst kv <> lowercase name) h ++ [(lowercase name, value)])%list.

(** The cookie jar of one request context ([new AstroCookies(request)]),
    identified by its allocation number. *)
Record AstroCookies := { jar_id : nat; jar_request : Request }.

Record Response := {
  status : Z;
  statusText : string;
  headers : Headers;
  body : option (list N);
  astroCookies : option AstroCookies
}.

Inductive RouteType := page | endpoint | other_type (name : string).

Record RouteData := {
  route : string;
  component : string;
  route_type : RouteType;
  prerender : bool
}.

#[global] Instance RouteType_eq_dec : EqDecision RouteType.
Proof. solve_decision. Defined.
#[global] Instance RouteData_eq_dec : EqDecision RouteData.
Proof. solve_decision. Defined.

Record SSRElement := { el_props : list (string * string); el_children : string }.

Inductive RouteScript :=
| StagedScript (children stage : string)
| ModuleScript (kind value : string).

Record RouteInfo := {
  routeData : RouteData;
  file : string;
  links : list string;
  scripts : list RouteScript;
  styles : list (string * string)
}.

Record ManifestData := { md_routes : list RouteData }.

(** A compiled page or endpoint module; [mod_prerender] is its [prerender]
    export (absent counts as [false]). *)
Record ComponentInstance := { mod_name : string; mod_prerender : bool }.

(** [AstroMiddlewareInstance]: the hook is user code, held by reference. *)
Record Middleware := { onRequest : option nat }.

Record SSRManifest := {
  mf_adapterName : option string;
  mf_routes : list RouteInfo;
  mf_site : option string;
  mf_base : option string;
  mf_assets : gset string;
  mf_pageMap : gmap string ComponentInstance;
  mf_middleware : option Middleware;
  mf_componentMetadata : list (string * string)
}.

Record LogOptions := { log_dest : string; log_level : string }.

Record Environment := {
  env_adapterName : option string;
  env_logging : LogOptions;
  env_mode : string;
  env_site : option string;
  env_ssr : bool;
  env_streaming : bool
}.

Definition Params := list (string * string).
Definition Props := list (string * JSValue).

Record RenderContext := {
  rc_request : Request;
  rc_origin : string;
  rc_pathname : string;
  rc_scripts : option (list SSRElement);
  rc_styles : option (list SSRElement);
  rc_links : option (list SSRElement);
  rc_componentMetadata : option (list (string * string));
  rc_route : option RouteData;
  rc_status : option Z;
  rc_params : Params;
  rc_props : Props
}.

Record CreateRenderContextArgs := {
  crc_request : Request;
  crc_origin : string;
  crc_pathname : string;
  crc_componentMetadata : option (list (string * string));
  crc_scripts : option (list SSRElement);
  crc_styles : option (list SSRElement);
  crc_links : option (list SSRElement);
  crc_route : RouteData;
  crc_status : Z;
  crc_mod : option ComponentInstance;
  crc_env : Environment
}.

(** [EndpointOutput]: the "simple" return shape of an endpoint handler. *)
Record EndpointOutput := {
  out_body : JSText;
  out_encoding : option string;
  out_hasOwn_headers : bool
}.

(** What [renderEndpoint] hands back: [Response | EndpointOutput]. *)
Inductive EndpointValue :=
| EVResponse (r : Response)
| EVOutput (o : EndpointOutput).

Inductive EndpointCallResult :=
| simple (body : JSText) (encoding : option string) (cookies : AstroCookies)
| response (r : Response).

Record APIContext := {
  ctx_cookies : AstroCookies;
  ctx_request : Request;
  ctx_params : Params;
  ctx_site : option URL;
  ctx_generator : string;
  ctx_props : Props;
  ctx_url : URL;
  (* captured by the [clientAddress] getter *)
  ctx_adapterName : option string
}.

(** ** Errors *)

(** The entries of [AstroErrorData] that this code throws, with the argument
    their [message] function is applied to. *)
Inductive AstroErrorData :=
| ClientAddressNotAvailable (adapterName : string)
| StaticClientAddressNotAvailable
| LocalsNotAnObject
| LocalsNotSerializable (pathname : string)
| StaticRedirectNotAvailable
| MiddlewareNoDataOrNextCalled
| MiddlewareNotAResponse.

Inductive Thrown :=
| AstroError (data : AstroErrorData)
| TypeError (message : string)
| RangeError (message : string)
| Error (message : string)
| ThrownValue (v : JSValue).

(** ** The world and the monad of [async] code *)

Inductive LogLevel := level_warn | level_error.

Record LogMessage := {
  msg_level : LogLevel;
  msg_options : LogOptions;
  msg_label : string;
  msg_text : string
}.

Record World := {
  w_requests : gmap nat RequestProps;
  w_next_request : nat;
  w_next_jar : nat;
  w_console : list LogMessage
}.

(** How an evaluation ends: a value, a thrown exception, or no end at all
    (the recursion of [render] through [#callEndpoint] is measured by fuel). *)
Inductive Completion (A : Type) :=
| Normal (a : A)
| Throw (e : Thrown)
| Diverge.
Arguments Normal {A} a.
Arguments Throw {A} e.
Arguments Diverge {A}.

Definition M (A : Type) : Type := World -> World * Completion A.

Definition ret {A} (a : A) : M A := fun w => (w, Normal a).

Definition bind {A B} (m : M A) (k : A -> M B) : M B :=
  fun w =>
    match m w with
    | (w', Normal a) => k a w'
    | (w', Throw e) => (w', Throw e)
    | (w', Diverge) => (w', Diverge)
    end.

Definition throw {A} (e : Thrown) : M A := fun w => (w, Throw e).

Definition diverge {A} : M A := fun w => (w, Diverge).

(** [try { m } catch (e) { h e }]. *)
Definition try_catch {A} (m : M A) (h : Thrown -> M A) : M A :=
  fun w =>
    match m w with
    | (w', Throw e) => h e w'
    | r => r
    end.

Declare Scope js_scope.
Delimit Scope js_scope with js.
Notation "'let*' x ':=' m 'in' k" := (bind m (fun x => k))
  (at level 10, x binder, m at level 100, k at level 200) : js_scope.
Local Open Scope js_scope.

Definition props_of (w : World) (r : Request) : RequestProps :=
  default no_props (w_requests w !! request_id r).

Definition set_props (r : Request) (p : RequestProps) (w : World) : World :=
  {| w_requests := <[request_id r := p]> (w_requests w);
     w_next_request := w_next_request w;
     w_next_jar := w_next_jar w;
     w_console := w_console w |}.

(** [Reflect.get(request, sym)] / [Reflect.set(request, sym, v)]. *)
Definition Reflect_get_locals (r : Request) : M JSValue :=
  fun w => (w, Normal (default JSUndefined (clientLocalsSymbol (props_of w r)))).

Definition Reflect_set_locals (r : Request) (v : JSValue) : M unit :=
  fun w =>
    let p := props_of w r in
    (set_props r {| clientAddressSymbol := clientAddressSymbol p;
                    clientLocalsSymbol := Some v;
                    responseSentSymbol := responseSentSymbol p |} w, Normal tt).

Definition Reflect_set_responseSent (r : Request) (v : JSValue) : M unit :=
  fun w =>
    let p := props_of w r in
    (set_props r {| clientAddressSymbol := clientAddressSymbol p;
                    clientLocalsSymbol := clientLocalsSymbol p;
                    responseSentSymbol := Some v |} w, Normal tt).

(** [new Request(url)]: a fresh object with nothing attached. *)
Definition Request_new (u : URL) : M Request :=
  fun w =>
    ({| w_requests := w_requests w;
        w_next_request := S (w_next_request w);
        w_next_jar := w_next_jar w;
        w_console := w_console w |},
     Normal {| request_id := w_next_request w; url := u |}).

(** [new AstroCookies(request)]. *)
Definition AstroCookies_new (r : Request) : M AstroCookies :=
  fun w =>
    ({| w_requests := w_requests w;
        w_next_request := w_next_request w;
        w_next_jar := S (w_next_jar w);
        w_console := w_console w |},
     Normal {| jar_id := w_next_jar w; jar_request := r |}).

Definition log (l : LogLevel) (opts : LogOptions) (label text : string) : M unit :=
  fun w =>
    ({| w_requests := w_requests w;
        w_next_request := w_next_request w;
        w_next_jar := w_next_jar w;
        w_console := (w_console w ++ [{| msg_level := l; msg_options := opts;
                                         msg_label := label; msg_text := text |}])%list |},
     Normal tt).

(** Modelled from the spec: [warn] and [error] of [logger/core.js] are not
    among the sources.  Each call is recorded on the console with the
    [LogOptions] it was given; the destination's level filter is not applied. *)
Definition warn (opts : LogOptions) (label text : string) : M unit :=
  log level_warn opts label text.
Definition error (opts : LogOptions) (label text : string) : M unit :=
  log level_error opts label text.

(** Modelled from the spec: [attachToResponse] of [cookies/index.js] is not
    among the sources.  It attaches the jar to the response ("attach
    cookies"), from where [getSetCookiesFromResponse] reads it back. *)
Definition attachToResponse (r : Response) (c : AstroCookies) : Response :=
  {| status := status r; statusText := statusText r; headers := headers r;
     body := body r; astroCookies := Some c |}.

(** ** External collaborators *)

(** A value a middleware hook may hand back in place of the continuation's:
    [callMiddleware<R>] is used at [R = Response] and at
    [R = Response | EndpointOutput], both of which contain [Response]. *)
Class FromResponse (R : Type) := from_response : Response -> R.
#[global] Instance Response_FromResponse : FromResponse Response := fun r => r.
#[global] Instance EndpointValue_FromResponse : FromResponse EndpointValue := EVResponse.

(** The imports of the two modules that are not part of the sources, taken as
    parameters: path helpers, the route matcher, the [mime] package, the
    renderers, the middleware runner and the serializability test.  User code
    (components, handlers, hooks) runs inside [renderPage], [renderEndpoint]
    and [callMiddleware], which may change the world and may throw anything. *)
Class Collaborators := {
  prependForwardSlash : string -> string;
  removeTrailingForwardSlash : string -> string;
  matchRoute : string -> ManifestData -> option RouteData;
  mime_getType : string -> option string;
  URL_parse : string -> option URL;
  ASTRO_VERSION : string;
  isValueSerializable : JSValue -> bool;
  createStylesheetElementSet : list (string * string) -> list SSRElement;
  createModuleScriptElement : RouteScript -> SSRElement;
  createRenderContext : CreateRenderContextArgs -> M RenderContext;
  renderPage :
    option ComponentInstance -> RenderContext -> Environment -> APIContext -> M Response;
  renderEndpoint : option ComponentInstance -> APIContext -> bool -> M EndpointValue;
  callMiddleware : forall R : Type, FromResponse R -> nat -> APIContext -> M R -> M R;
  (* the text of [err.stack || err.message || String(err)] when it has one *)
  error_text : Thrown -> string
}.

(** ** core/endpoint/index.ts *)

Section Endpoint.
Context `{Collaborators}.

Record APIContextArgs := {
  arg_request : Request;
  arg_params : Params;
  arg_site : option string;
  arg_props : Props;
  arg_adapterName : option string
}.

(** A response without a body. *)
Definition bodiless (st : Z) (text : string) (h : Headers) : Response :=
  {| status := st; statusText := text; headers := h; body := None;
     astroCookies := None |}.

(** [new Response(null, { status, statusText, headers })]; the constructor
    rejects a status outside 200..599. *)
Definition Response_null (st : Z) (text : string) (h : Headers) : M Response :=
  if ((200 <=? st) && (st <=? 599))%Z
  then ret (bodiless st text h)
  else throw (RangeError "init[status] must be in the range of 200 to 599, inclusive.").

Definition createAPIContext (a : APIContextArgs) : M APIContext :=
  let* jar := AstroCookies_new (arg_request a) in
  let* site :=
    match arg_site a with
    | Some (String c s) =>
        match URL_parse (String c s) with
        | Some u => ret (Some u)
        | None => throw (TypeError "Invalid URL")
        end
    | _ => ret None
    end in
  ret {| ctx_cookies := jar;
         ctx_request := arg_request a;
         ctx_params := arg_params a;
         ctx_site := site;
         ctx_generator := "Astro v" +:+ ASTRO_VERSION;
         ctx_props := arg_props a;
         ctx_url := url (arg_request a);
         ctx_adapterName := arg_adapterName a |}.

(** [context.redirect(path, status)]; [status || 302]. *)
Definition redirect (path : string) (st : option Z) : M Response :=
  Response_null (match st with Some 0 | None => 302 | Some s => s end) ""
    [(lowercase "Location", path)].

(** [get clientAddress()]. *)
Definition clientAddress (context : APIContext) : M JSValue :=
  fun w =>
    match clientAddressSymbol (props_of w (ctx_request context)) with
    | None =>
        match ctx_adapterName context with
        | Some (String c s) =>
            (w, Throw (AstroError (ClientAddressNotAvailable (String c s))))
        | _ => (w, Throw (AstroError StaticClientAddressNotAvailable))
        end
    | Some v => (w, Normal v)
    end.

(** The [locals] property defined on the context: getter and setter. *)
Definition locals_get (context : APIContext) : M JSValue :=
  Reflect_get_locals (ctx_request context).

Definition locals_set (context : APIContext) (val : JSValue) : M unit :=
  if decide (typeof val <> "object")
  then throw (AstroError LocalsNotAnObject)
  else Reflect_set_locals (ctx_request context) val.

Definition middleware_warning : string :=
  "Middleware doesn't work for endpoints that return a simple body. The middleware will be disabled for this page.".
Definition headers_warning : string :=
  "Setting headers is not supported when returning an object. Please return an instance of Response. See https://docs.astro.build/en/core-concepts/endpoints/#server-endpoints-api-routes for more information.".
Definition encoding_warning : string :=
  "`encoding` is ignored in SSR. To return a charset other than UTF-8, please return an instance of Response. See https://docs.astro.build/en/core-concepts/endpoints/#server-endpoints-api-routes for more information.".

(** [response.body === null] on [Response | EndpointOutput]: the body of an
    [EndpointOutput] is a string. *)
Definition body_is_null (v : EndpointValue) : bool :=
  match v with
  | EVResponse r => match body r with None => true | Some _ => false end
  | EVOutput _ => false
  end.

(** The continuation that [call] gives to the middleware runner. *)
Definition call_responseFunction (env : Environment) (ctx : RenderContext)
    (context : APIContext) (preliminary : EndpointValue) : M EndpointValue :=
  if decide (env_mode env = "development") then
    let* l := locals_get context in
    if negb (isValueSerializable l)
    then throw (AstroError (LocalsNotSerializable (rc_pathname ctx)))
    else ret preliminary
  else ret preliminary.

Definition when (b : bool) (m : M unit) : M unit := if b then m else ret tt.

(** The part of [call] after the middleware step: a [Response] gets the
    cookies, anything else is wrapped as a simple body. *)
Definition call_result (mod_ : option ComponentInstance) (env : Environment)
    (logging : LogOptions) (context : APIContext) (result : EndpointValue)
    : M EndpointCallResult :=
  match result with
  | EVResponse r => ret (response (attachToResponse r (ctx_cookies context)))
  | EVOutput o =>
      let* _ :=
        if env_ssr env then
          match mod_ with
          | None => throw (TypeError "Cannot read properties of undefined (reading 'prerender')")
          | Some m =>
              if negb (mod_prerender m) then
                let* _ := when (out_hasOwn_headers o) (warn logging "ssr" headers_warning) in
                when (truthy_string (out_encoding o)) (warn logging "ssr" encoding_warning)
              else ret tt
          end
        else ret tt in
      ret (simple (out_body o) (out_encoding o) (ctx_cookies context))
  end.

(** The argument object [call] builds for [createAPIContext]. *)
Definition call_context_args (env : Environment) (ctx : RenderContext) : APIContextArgs :=
  {| arg_request := rc_request ctx;
     arg_params := rc_params ctx;
     arg_props := rc_props ctx;
     arg_site := env_site env;
     arg_adapterName := env_adapterName env |}.

Definition call (mod_ : option ComponentInstance) (env : Environment)
    (ctx : RenderContext) (logging : LogOptions) (middleware : option Middleware)
    : M EndpointCallResult :=
  let* context := createAPIContext (call_context_args env ctx) in
  let* preliminary := renderEndpoint mod_ context (env_ssr env) in
  let* result :=
    match middleware with
    | Some {| onRequest := Some hook |} =>
        if body_is_null preliminary then
          callMiddleware EndpointValue _ hook context
            (call_responseFunction env ctx context preliminary)
        else
          let* _ := warn (env_logging env) "middleware" middleware_warning in
          ret preliminary
    | _ => ret preliminary
    end in
  call_result mod_ env logging context result.

Definition isRedirect (statusCode : Z) : bool :=
  ((300 <=? statusCode) && (statusCode <? 400))%Z.

(** [config] is read for its [output] field only. *)
Definition throwIfRedirectNotAllowed (r : Response) (config_output : string) : M unit :=
  if negb (bool_decide (config_output = "server")) && isRedirect (status r)
  then throw (AstroError StaticRedirectNotAvailable)
  else ret tt.

End Endpoint.

(** ** core/app/index.ts *)

Definition consoleLogging : LogOptions := {| log_dest := "console"; log_level := "info" |}.

Section AppClass.
Context `{Collaborators}.

(** The private fields of an [App] instance. *)
Record App := {
  app_env : Environment;
  app_manifest : SSRManifest;
  app_manifestData : ManifestData;
  app_routeDataToRouteInfo : list (RouteData * RouteInfo);
  app_logging : LogOptions;
  app_base : string;
  app_baseWithoutTrailingSlash : string
}.

(** [constructor(manifest, streaming = true)].  [createEnvironment] returns
    the options it is given; those that this code never reads are left out. *)
Definition App_new (manifest : SSRManifest) (streaming : bool) : App :=
  let base :=
    match mf_base manifest with
    | Some (String c s) => String c s
    | _ => "/"
    end in
  {| app_manifest := manifest;
     app_manifestData := {| md_routes := map routeData (mf_routes manifest) |};
     app_routeDataToRouteInfo := map (fun r => (routeData r, r)) (mf_routes manifest);
     app_env := {| env_adapterName := mf_adapterName manifest;
                   env_logging := consoleLogging;
                   env_mode := "production";
                   env_site := mf_site manifest;
                   env_ssr := true;
                   env_streaming := streaming |};
     app_logging := consoleLogging;
     app_base := base;
     app_baseWithoutTrailingSlash := removeTrailingForwardSlash base |}.

(** [Map.prototype.get] on [#routeDataToRouteInfo]: the entry set last wins.
    Keys are compared structurally, standing in for object identity. *)
Definition routeDataToRouteInfo_get (app : App) (k : RouteData) : option RouteInfo :=
  snd <$> find (fun e => bool_decide (fst e = k)) (rev (app_routeDataToRouteInfo app)).

Definition removeBase (app : App) (path : string) : string :=
  if startsWith path (app_base app)
  then slice path (String.length (app_baseWithoutTrailingSlash app) + 1)
  else path.

(** [prependForwardSlash(this.removeBase(url.pathname))]: the path that
    [match] and [#renderPage] work with. *)
Definition lookup_path (app : App) (request : Request) : string :=
  prependForwardSlash (removeBase app (pathname (url request))).

(** [match(request, { matchNotFound = false } = {})]. *)
Definition App_match (app : App) (request : Request) (matchNotFound : bool)
    : option RouteData :=
  let u := url request in
  if bool_decide (pathname u ∈ mf_assets (app_manifest app)) then None
  else
    let path := lookup_path app request in
    match matchRoute path (app_manifestData app) with
    | Some rd => if prerender rd then None else Some rd
    | None =>
        if matchNotFound then
          match matchRoute "/404" (app_manifestData app) with
          | Some notFoundRouteData =>
              if prerender notFoundRouteData then None else Some notFoundRouteData
          | None => None
          end
        else None
    end.

(** The loop of [#renderPage] over [info.scripts]. *)
Definition collect_scripts (l : list RouteScript) : list SSRElement :=
  fold_left
    (fun acc script =>
       match script with
       | StagedScript children stage =>
           if bool_decide (stage = "head-inline")
           then (acc ++ [{| el_props := []; el_children := children |}])%list
           else acc
       | ModuleScript _ _ => (acc ++ [createModuleScriptElement script])%list
       end)
    l [].

(** [err.stack || err.message || String(err)]: reading a property of
    [undefined] or [null] is itself a [TypeError]. *)
Definition error_description (err : Thrown) : M string :=
  match err with
  | ThrownValue JSUndefined =>
      throw (TypeError "Cannot read properties of undefined (reading 'stack')")
  | ThrownValue JSNull =>
      throw (TypeError "Cannot read properties of null (reading 'stack')")
  | _ => ret (error_text err)
  end.

(** The [try] block of [#renderPage]. *)
Definition renderPage_try (app : App) (request : Request) (rd : RouteData)
    (mod_ : option ComponentInstance) (st : Z) (path : string)
    (scripts styles links : list SSRElement) : M Response :=
  let* renderContext :=
    createRenderContext
      {| crc_request := request;
         crc_origin := origin (url request);
         crc_pathname := path;
         crc_componentMetadata := Some (mf_componentMetadata (app_manifest app));
         crc_scripts := Some scripts;
         crc_styles := Some styles;
         crc_links := Some links;
         crc_route := rd;
         crc_status := st;
         crc_mod := mod_;
         crc_env := app_env app |} in
  let* apiContext :=
    createAPIContext {| arg_request := rc_request renderContext;
                        arg_params := rc_params renderContext;
                        arg_props := rc_props renderContext;
                        arg_site := env_site (app_env app);
                        arg_adapterName := env_adapterName (app_env app) |} in
  let* r :=
    match mf_middleware (app_manifest app) with
    | Some {| onRequest := Some hook |} =>
        callMiddleware Response _ hook apiContext
          (renderPage mod_ renderContext (app_env app) apiContext)
    | _ => renderPage mod_ renderContext (app_env app) apiContext
    end in
  let* _ := Reflect_set_responseSent request (JSBool true) in
  ret r.

(** The world after [error(this.#logging, 'ssr', text)]. *)
Definition logged (app : App) (text : string) (w : World) : World :=
  fst (error (app_logging app) "ssr" text w).

(** The [catch] block of [#renderPage]. *)
Definition renderPage_catch (app : App) (err : Thrown) : M Response :=
  let* text := error_description err in
  let* _ := error (app_logging app) "ssr" text in
  Response_null 500 "Internal server error" [].

(** The [try] block as [#renderPage] enters it for the metadata [info]. *)
Definition renderPage_attempt (app : App) (request : Request) (rd : RouteData)
    (info : RouteInfo) (mod_ : option ComponentInstance) (st : Z) : M Response :=
  let path := lookup_path app request in
  let links := [] in
  let styles := createStylesheetElementSet (styles info) in
  let scripts := collect_scripts (scripts info) in
  renderPage_try app request rd mod_ st path scripts styles links.

(** [#renderPage(request, routeData, mod, status)]. *)
Definition App_renderPage (app : App) (request : Request) (rd : RouteData)
    (mod_ : option ComponentInstance) (st : Z) : M Response :=
  match routeDataToRouteInfo_get app rd with
  | None => throw (TypeError "Cannot read properties of undefined (reading 'styles')")
  | Some info =>
      try_catch (renderPage_attempt app request rd info mod_ st) (renderPage_catch app)
  end.

(** The [Content-Type] that [#callEndpoint] sets for a simple body. *)
Definition content_type_of (path : string) : string :=
  match mime_getType path with
  | Some (String c s) => String c s +:+ ";charset=utf-8"
  | _ => "text/plain;charset=utf-8"
  end.

(** The argument object [#callEndpoint] builds for [createRenderContext]. *)
Definition callEndpoint_context_args (app : App) (request : Request) (rd : RouteData)
    (mod_ : option ComponentInstance) (st : Z) : CreateRenderContextArgs :=
  let u := url request in
  {| crc_request := request;
     crc_origin := origin u;
     crc_pathname := "/" +:+ removeBase app (pathname u);
     crc_componentMetadata := None;
     crc_scripts := None;
     crc_styles := None;
     crc_links := None;
     crc_route := rd;
     crc_status := st;
     crc_mod := mod_;
     crc_env := app_env app |}.

(** [#callEndpoint(request, routeData, mod, status)]; [render] is the method
    it calls back for the [/404] route. *)
Definition App_callEndpoint (render : Request -> option RouteData -> M Response)
    (app : App) (request : Request) (rd : RouteData)
    (mod_ : option ComponentInstance) (st : Z) : M Response :=
  let u := url request in
  let* ctx := createRenderContext (callEndpoint_context_args app request rd mod_ st) in
  let* result :=
    call mod_ (app_env app) ctx (app_logging app) (mf_middleware (app_manifest app)) in
  match result with
  | response r =>
      if bool_decide (Headers_get "X-Astro-Response" (headers r) = Some "Not-Found") then
        let* fourOhFourRequest := Request_new (URL_resolve "/404" u) in
        match App_match app fourOhFourRequest false with
        | Some fourOhFourRouteData => render fourOhFourRequest (Some fourOhFourRouteData)
        | None => ret r
        end
      else ret r
  | simple body _ cookies =>
      let h :=
        match mime_getType (pathname u) with
        | Some (String c s) =>
            Headers_set "Content-Type" (String c s +:+ ";charset=utf-8") []
        | _ => Headers_set "Content-Type" "text/plain;charset=utf-8" []
        end in
      let bytes := TextEncoder_encode body in
      let h := Headers_set "Content-Length" (Number_toString (length bytes)) h in
      ret (attachToResponse
             {| status := 200; statusText := ""; headers := h; body := Some bytes;
                astroCookies := None |}
             cookies)
  end.

(** The first lines of [render]: the route to render and the default status,
    or nothing when neither the request nor the not-found lookup matches. *)
Definition render_match (app : App) (request : Request) (routeData : option RouteData)
    : option (RouteData * Z) :=
  match routeData with
  | Some rd => Some (rd, 200)
  | None =>
      match App_match app request false with
      | Some rd => Some (rd, 200)
      | None =>
          match App_match app request true with
          | Some rd => Some (rd, 404)
          | None => None
          end
      end
  end.

(** [render] from [Reflect.set(request, clientLocalsSymbol, {})] on;
    [render] is the method itself, for [#callEndpoint]. *)
Definition render_matched (render : Request -> option RouteData -> M Response)
    (app : App) (request : Request) (rd : RouteData) (defaultStatus : Z) : M Response :=
  let* _ := Reflect_set_locals request (JSObject []) in
  let defaultStatus :=
    if bool_decide (route rd = "/404") then 404 else defaultStatus in
  let mod_ := mf_pageMap (app_manifest app) !! component rd in
  match route_type rd with
  | page =>
      let* r := App_renderPage app request rd mod_ defaultStatus in
      if bool_decide (status r = 500) then
        match matchRoute "/500" (app_manifestData app) with
        | Some fiveHundredRouteData =>
            let mod_ :=
              mf_pageMap (app_manifest app) !! component fiveHundredRouteData in
            try_catch
              (App_renderPage app request fiveHundredRouteData mod_ 500)
              (fun _ => ret r)
        | None => ret r
        end
      else ret r
  | endpoint => App_callEndpoint render app request rd mod_ defaultStatus
  | other_type name =>
      throw (Error ("Unsupported route type [" +:+ name +:+ "]."))
  end.

(** [render(request, routeData?)].  The method re-enters itself through
    [#callEndpoint]; [fuel] bounds the depth of that recursion. *)
Fixpoint App_render (fuel : nat) (app : App) (request : Request)
    (routeData : option RouteData) {struct fuel} : M Response :=
  match fuel with
  | O => diverge
  | S fuel' =>
      match render_match app request routeData with
      | None => Response_null 404 "Not found" []
      | Some (rd, defaultStatus) =>
          render_matched (App_render fuel' app) app request rd defaultStatus
      end
  end.

End AppClass.

(** ** A concrete site, after [test/fixtures/middleware-dev]

    One instance of the collaborators on which the model can be run: static
    routes, components and hooks addressed by name, and the hooks of the
    fixture's [middleware.js]. *)
Module Fixture.

Definition fx_prependForwardSlash (path : string) : string :=
  match path with
  | String "/" _ => path
  | _ => "/" +:+ path
  end.

Definition endsWith (s suffix : string) : bool :=
  let n := String.length s in
  let k := String.length suffix in
  (k <=? n)%nat && bool_decide (String.substring (n - k) k s = suffix).

Definition fx_removeTrailingForwardSlash (path : string) : string :=
  if endsWith path "/" then String.substring 0 (String.length path - 1) path else path.

Definition fx_matchRoute (path : string) (manifest : ManifestData) : option RouteData :=
  find (fun r => bool_decide (route r = path)) (md_routes manifest).

Definition fx_mime_getType (path : string) : option string :=
  if endsWith path ".json" then Some "application/json"
  else if endsWith path ".txt" then Some "text/plain"
  else if endsWith path ".html" then Some "text/html"
  else None.

Definition fx_URL_parse (s : string) : option URL :=
  if startsWith s "http" then Some {| origin := s; pathname := "/"; search := "" |}
  else None.

(** Plain data survives serialization; functions and [undefined] do not. *)
Fixpoint fx_isValueSerializable (v : JSValue) : bool :=
  match v with
  | JSNull | JSBool _ | JSNumber _ | JSString _ | JSArray _ => true
  | JSObject fields =>
      (fix all (l : list (string * JSValue)) : bool :=
         match l with
         | [] => true
         | (_, x) :: l' => fx_isValueSerializable x && all l'
         end) fields
  | JSUndefined | JSFunction _ => false
  end.

Definition fx_createRenderContext (a : CreateRenderContextArgs) : M RenderContext :=
  ret {| rc_request := crc_request a;
         rc_origin := crc_origin a;
         rc_pathname := crc_pathname a;
         rc_scripts := crc_scripts a;
         rc_styles := crc_styles a;
         rc_links := crc_links a;
         rc_componentMetadata := crc_componentMetadata a;
         rc_route := Some (crc_route a);
         rc_status := Some (crc_status a);
         rc_params := [];
         rc_props := [] |}.

Definition html (st : Z) (text : string) : Response :=
  {| status := st; statusText := "";
     headers := [("content-type", "text/html")];
     body := Some (TextEncoder_encode (text_of_ascii text));
     astroCookies := None |}.

(** Components: [Throws.astro] always throws an [Error],
    [Rejects.astro] awaits [Promise.reject()], every other page renders its
    own name with the status of the render context. *)
Definition fx_renderPage (mod_ : option ComponentInstance) (rc : RenderContext)
    (env : Environment) (context : APIContext) : M Response :=
  match mod_ with
  | None => throw (TypeError "Cannot read properties of undefined")
  | Some m =>
      if bool_decide (mod_name m = "Throws.astro") then throw (Error "boom")
      else if bool_decide (mod_name m = "Rejects.astro") then throw (ThrownValue JSUndefined)
      else ret (html (default 200 (rc_status rc)) (mod_name m))
  end.

Definition empty_response (h : Headers) : Response :=
  {| status := 200; statusText := ""; headers := h; body := None; astroCookies := None |}.

(** Endpoint handlers, by module name. *)
Definition fx_renderEndpoint (mod_ : option ComponentInstance) (context : APIContext)
    (ssr : bool) : M EndpointValue :=
  match mod_ with
  | None => throw (TypeError "Cannot read properties of undefined")
  | Some m =>
      if bool_decide (mod_name m = "hi.ts") then
        ret (EVOutput {| out_body := text_of_ascii "hi"; out_encoding := None;
                         out_hasOwn_headers := false |})
      else if bool_decide (mod_name m = "empty.ts") then
        ret (EVResponse (empty_response []))
      else if bool_decide (mod_name m = "full.ts") then
        ret (EVResponse (html 200 "hello"))
      else if bool_decide (mod_name m = "missing.ts") then
        ret (EVResponse (empty_response [("x-astro-response", "Not-Found")]))
      else throw (Error "No handler found")
  end.

(** Hooks: 0 sets [locals.name = 'bar'] and calls [next()]; 1 assigns
    [locals = { fn() {} }] and calls [next()]; 2 answers by itself; any other
    neither answers nor calls [next()]. *)
Definition fx_callMiddleware (R : Type) (inj : FromResponse R) (hook : nat)
    (context : APIContext) (next : M R) : M R :=
  match hook with
  | 0%nat =>
      let* _ := Reflect_set_locals (ctx_request context)
                  (JSObject [("name", JSString "bar")]) in
      next
  | 1%nat =>
      let* _ := Reflect_set_locals (ctx_request context)
                  (JSObject [("fn", JSFunction 0)]) in
      next
  | 2%nat => ret (from_response (html 200 "<span>New content!!</span>"))
  | _ => throw (AstroError MiddlewareNoDataOrNextCalled)
  end.

Definition fx_error_text (err : Thrown) : string :=
  match err with
  | AstroError _ => "AstroError"
  | TypeError m => "TypeError: " +:+ m
  | RangeError m => "RangeError: " +:+ m
  | Error m => "Error: " +:+ m
  | ThrownValue (JSString s) => s
  | ThrownValue _ => "[object]"
  end.

#[global] Instance collaborators : Collaborators := {|
  prependForwardSlash := fx_prependForwardSlash;
  removeTrailingForwardSlash := fx_removeTrailingForwardSlash;
  matchRoute := fx_matchRoute;
  mime_getType := fx_mime_getType;
  URL_parse := fx_URL_parse;
  ASTRO_VERSION := "2.5.0";
  isValueSerializable := fx_isValueSerializable;
  createStylesheetElementSet :=
    map (fun s => {| el_props := [("type", fst s)]; el_children := snd s |});
  createModuleScriptElement :=
    fun s => match s with
             | ModuleScript kind value =>
                 {| el_props := [("type", "module"); (kind, value)]; el_children := "" |}
             | StagedScript children _ => {| el_props := []; el_children := children |}
             end;
  createRenderContext := fx_createRenderContext;
  renderPage := fx_renderPage;
  renderEndpoint := fx_renderEndpoint;
  callMiddleware := fx_callMiddleware;
  error_text := fx_error_text
|}.

Definition page_route (path file : string) (pre : bool) : RouteInfo :=
  {| routeData := {| route := path; component := file; route_type := page;
                     prerender := pre |};
     file := file; links := []; scripts := []; styles := [] |}.

Definition endpoint_route (path file : string) : RouteInfo :=
  {| routeData := {| route := path; component := file; route_type := endpoint;
                     prerender := false |};
     file := file; links := []; scripts := []; styles := [] |}.

Definition module (file : string) : string * ComponentInstance :=
  (file, {| mod_name := file; mod_prerender := false |}).

Definition site_with (routes : list RouteInfo) (assets : list string)
    (hook : option nat) : SSRManifest :=
  {| mf_adapterName := Some "test-adapter";
     mf_routes := routes;
     mf_site := None;
     mf_base := None;
     mf_assets := list_to_set assets;
     mf_pageMap := list_to_map (map (fun r => module (file r)) routes);
     mf_middleware := option_map (fun h => {| onRequest := Some h |}) hook;
     mf_componentMetadata := [] |}.

Definition get (path : string) : Request :=
  {| request_id := 0;
     url := {| origin := "http://example.com"; pathname := path; search := "" |} |}.

Definition fresh : World :=
  {| w_requests := ∅; w_next_request := 1; w_next_jar := 0; w_console := [] |}.

(** The routes of the site: pages, one of them pre-rendered, two that fail,
    the error pages, and four endpoints. *)
Definition routes : list RouteInfo :=
  [ page_route "/" "Index.astro" false;
    page_route "/about" "About.astro" true;
    page_route "/boom" "Throws.astro" false;
    page_route "/rejects" "Rejects.astro" false;
    page_route "/404" "404.astro" false;
    page_route "/500" "500.astro" false;
    endpoint_route "/hi" "hi.ts";
    endpoint_route "/empty" "empty.ts";
    endpoint_route "/full" "full.ts";
    endpoint_route "/missing" "missing.ts" ].

Definition site (hook : option nat) : SSRManifest :=
  site_with routes ["/favicon.ico"] hook.

(** The same site with its [/404] page pre-rendered, and with none. *)
Definition site_static_404 : SSRManifest :=
  site_with [ page_route "/" "Index.astro" false;
              page_route "/404" "404.astro" true;
              endpoint_route "/missing" "missing.ts" ] [] None.

Definition site_without_404 : SSRManifest :=
  site_with [ page_route "/" "Index.astro" false;
              endpoint_route "/missing" "missing.ts" ] [] None.

(** A site whose [/500] page fails as well. *)
Definition site_failing_500 : SSRManifest :=
  site_with [ page_route "/boom" "Throws.astro" false;
              page_route "/500" "Throws.astro" false ] [] None.

Definition environment (mode : string) : Environment :=
  {| env_adapterName := Some "test-adapter";
     env_logging := consoleLogging;
     env_mode := mode;
     env_site := None;
     env_ssr := true;
     env_streaming := true |}.

Definition render_context (path : string) : RenderContext :=
  {| rc_request := get path;
     rc_origin := "http://example.com";
     rc_pathname := path;
     rc_scripts := None;
     rc_styles := None;
     rc_links := None;
     rc_componentMetadata := None;
     rc_route := None;
     rc_status := Some 200;
     rc_params := [];
     rc_props := [] |}.

Definition context_args (path : string) (adapter : option string) : APIContextArgs :=
  {| arg_request := get path;
     arg_params := [];
     arg_site := None;
     arg_props := [];
     arg_adapterName := adapter |}.

(** A world in which the adapter attached a client address to request 0. *)
Definition with_client_address : World :=
  {| w_requests :=
       {[ 0%nat := {| clientAddressSymbol := Some (JSString "203.0.113.7");
                      clientLocalsSymbol := None;
                      responseSentSymbol := None |} ]};
     w_next_request := 1; w_next_jar := 0; w_console := [] |}.

(** A world in which a hook has put a function into the locals of request 0. *)
Definition with_function_in_locals : World :=
  {| w_requests :=
       {[ 0%nat := {| clientAddressSymbol := None;
                      clientLocalsSymbol := Some (JSObject [("fn", JSFunction 0)]);
                      responseSentSymbol := None |} ]};
     w_next_request := 1; w_next_jar := 1; w_console := [] |}.

Definition app (hook : option nat) : App := App_new (site hook) true.
Definition app_static_404 : App := App_new site_static_404 true.
Definition app_without_404 : App := App_new site_without_404 true.
Definition app_failing_500 : App := App_new site_failing_500 true.

Definition compiled (file : string) : option ComponentInstance :=
  Some (snd (module file)).

Definition hooked (hook : nat) : option Middleware :=
  Some {| onRequest := Some hook |}.

End Fixture.

(** ** What the orchestrator and the invoker log and match *)

(** Whether [call] sees an [onRequest] hook ([middleware && middleware.onRequest]). *)
Definition hook_configured (middleware : option Middleware) : bool :=
  match middleware with
  | Some {| onRequest := Some _ |} => true
  | _ => false
  end.

(** The diagnostics [call] hands to the logger for a simple body [o] of the
    module [m], in the order of the source: the middleware warning to
    [env.logging], then the headers and the encoding warnings to [logging]. *)
Definition simple_body_warnings (env : Environment) (logging : LogOptions)
    (middleware : option Middleware) (m : ComponentInstance) (o : EndpointOutput)
    : list LogMessage :=
  ((if hook_configured middleware
    then [{| msg_level := level_warn; msg_options := env_logging env;
             msg_label := "middleware"; msg_text := middleware_warning |}]
    else [])
   ++ (if env_ssr env && negb (mod_prerender m) then
         (if out_hasOwn_headers o
          then [{| msg_level := level_warn; msg_options := logging;
                   msg_label := "ssr"; msg_text := headers_warning |}]
          else [])
         ++ (if truthy_string (out_encoding o)
             then [{| msg_level := level_warn; msg_options := logging;
                      msg_label := "ssr"; msg_text := encoding_warning |}]
             else [])
       else []))%list.

(** A world with other locals attached to a request, everything else as it was. *)
Definition with_locals (r : Request) (v : JSValue) (w : World) : World :=
  fst (Reflect_set_locals r v w).

(** Two sites served under a base path, one configured with a trailing slash
    and one without. *)
Module Based.

Definition site (base : string) : SSRManifest :=
  {| mf_adapterName := None;
     mf_routes := Fixture.routes;
     mf_site := None;
     mf_base := Some base;
     mf_assets := ∅;
     mf_pageMap := ∅;
     mf_middleware := None;
     mf_componentMetadata := [] |}.

Definition docs_slash : App := App_new (site "/docs/") true.
Definition docs : App := App_new (site "/docs") true.

End Based.

(** A site with a route of a kind [render] does not know, and an endpoint
    whose handler throws. *)
Module Odd.

Definition legacy_route : RouteInfo :=
  {| routeData := {| route := "/old"; component := "old.redirect";
                     route_type := other_type "redirect"; prerender := false |};
     file := "old.redirect"; links := []; scripts := []; styles := [] |}.

Definition site : SSRManifest :=
  Fixture.site_with
    [ Fixture.page_route "/" "Index.astro" false;
      legacy_route;
      Fixture.endpoint_route "/broken" "broken.ts";
      Fixture.page_route "/500" "500.astro" false ]
    ["/favicon.ico"] None.

Definition app : App := App_new site true.

(** A world in which the adapter has attached locals to request 0. *)
Definition with_adapter_locals : World :=
  with_locals (Fixture.get "/") (JSObject [("user", JSString "ada")]) Fixture.fresh.

End Odd.

(** ** test/fixtures/middleware-dev/src/middleware.js *)

(** [request.url]: the URL as one string. *)
Definition href (u : URL) : string := origin u +:+ pathname u +:+ search u.

(** [String.prototype.includes]. *)
Fixpoint includes (s sub : string) : bool :=
  String.prefix sub s
  || match s with
     | EmptyString => false
     | String _ s' => includes s' sub
     end.

(** [object[key] = v] on the properties of an object literal: an existing key
    keeps its place, a new one goes last. *)
Fixpoint set_field (key : string) (v : JSValue) (fields : list (string * JSValue))
    : list (string * JSValue) :=
  match fields with
  | [] => [(key, v)]
  | (k, x) :: rest =>
      if bool_decide (k = key) then (k, v) :: rest else (k, x) :: set_field key v rest
  end.

(** [context.locals[key] = v], in a module (strict mode): the object that the
    getter returns is changed in place, the setter is not involved.  Writing
    to a property of [undefined], [null] or a primitive throws.  A property
    put on an array or on a function stays with that object; the value model
    holds the items of an array and the identity of a function only. *)
Definition locals_assign (context : APIContext) (key : string) (v : JSValue) : M unit :=
  let* l := locals_get context in
  match l with
  | JSObject fields =>
      Reflect_set_locals (ctx_request context) (JSObject (set_field key v fields))
  | JSUndefined => throw (TypeError "Cannot set properties of undefined")
  | JSNull => throw (TypeError "Cannot set properties of null")
  | JSBool _ | JSNumber _ | JSString _ =>
      throw (TypeError "Cannot create property on a primitive value")
  | JSArray _ | JSFunction _ => ret tt
  end.

(** [context.request.url]. *)
Definition request_url (context : APIContext) : string :=
  href (url (ctx_request context)).

Module MiddlewareDev.

(** [new Response('<span>New content!!</span>', { status: 200 })]; a string
    body brings its own [Content-Type]. *)
Definition rewritten : Response :=
  {| status := 200; statusText := "";
     headers := [("content-type", "text/plain;charset=UTF-8")];
     body := Some (TextEncoder_encode (text_of_ascii "<span>New content!!</span>"));
     astroCookies := None |}.

(** [{ fn() {} }]. *)
Definition broken_locals : JSValue := JSObject [("fn", JSFunction 0)].

Section Handlers.
Context {R : Type} `{FromResponse R}.

(** A handler gets the context and [next]; it returns a value of the
    continuation's kind, or [undefined] ([None]). *)
Definition Handler : Type := APIContext -> M (option R) -> M (option R).

Definition first : Handler := fun context next =>
  let u := request_url context in
  if includes u "/lorem" then
    let* _ := locals_assign context "name" (JSString "ipsum") in
    next
  else if includes u "/rewrite" then
    ret (Some (from_response rewritten))
  else if includes u "/broken-500" then
    let* r := Response_null 500 "" [] in
    ret (Some (from_response r))
  else
    let* _ := locals_assign context "name" (JSString "bar") in
    next.

Definition second : Handler := fun context next =>
  let u := request_url context in
  if includes u "/second" then
    let* _ := locals_assign context "name" (JSString "second") in
    next
  else if includes u "/redirect" then
    let* r := redirect "/" (Some 302) in
    ret (Some (from_response r))
  else next.

Definition third : Handler := fun context next =>
  let u := request_url context in
  if includes u "/broken-locals" then
    let* _ := locals_set context broken_locals in
    next
  else if includes u "/does-nothing" then
    ret None
  else next.

(** Modelled from the spec: [sequence] and [defineMiddleware] of
    ['astro/middleware'] are not among the sources.  The chain runs its
    handlers in declaration order, the [next] of each being the rest of the
    chain and the [next] of the last being the caller's ("equivalent to nested
    function composition"); [defineMiddleware] returns its argument. *)
Definition sequence (handlers : list Handler) : Handler := fun context next =>
  fold_right (fun handle rest => handle context rest) next handlers.

(** [export const onRequest = sequence(first, second, third)]. *)
Definition chain : Handler := sequence [first; second; third].

End Handlers.

(** The name the chain leaves in [locals.name] when it reaches [next]. *)
Definition name_for (u : string) : string :=
  if includes u "/second" then "second"
  else if includes u "/lorem" then "ipsum"
  else "bar".

End MiddlewareDev.

(** The fixture site with the hooks of [middleware.js] behind every hook
    number, a [/500] page, and an endpoint that returns an object with
    [headers] and an [encoding]. *)
Module DevSite.

Definition dev_callMiddleware (R : Type) (inj : FromResponse R) (hook : nat)
    (context : APIContext) (responseFunction : M R) : M R :=
  let* v := MiddlewareDev.chain context
              (let* r := responseFunction in ret (Some r)) in
  match v with
  | Some r => ret r
  | None => throw (AstroError MiddlewareNoDataOrNextCalled)
  end.

Definition dev_renderEndpoint (mod_ : option ComponentInstance) (context : APIContext)
    (ssr : bool) : M EndpointValue :=
  match mod_ with
  | Some m =>
      if bool_decide (mod_name m = "legacy.ts") then
        ret (EVOutput {| out_body := text_of_ascii "old";
                         out_encoding := Some "binary";
                         out_hasOwn_headers := true |})
      else Fixture.fx_renderEndpoint mod_ context ssr
  | None => Fixture.fx_renderEndpoint mod_ context ssr
  end.

Definition collaborators : Collaborators :=
  {| prependForwardSlash := Fixture.fx_prependForwardSlash;
     removeTrailingForwardSlash := Fixture.fx_removeTrailingForwardSlash;
     matchRoute := Fixture.fx_matchRoute;
     mime_getType := Fixture.fx_mime_getType;
     URL_parse := Fixture.fx_URL_parse;
     ASTRO_VERSION := "2.5.0";
     isValueSerializable := Fixture.fx_isValueSerializable;
     createStylesheetElementSet := fun _ => [];
     createModuleScriptElement :=
       fun _ => {| el_props := [("type", "module")]; el_children := "" |};
     createRenderContext := Fixture.fx_createRenderContext;
     renderPage := Fixture.fx_renderPage;
     renderEndpoint := dev_renderEndpoint;
     callMiddleware := dev_callMiddleware;
     error_text := Fixture.fx_error_text |}.

Definition site : SSRManifest :=
  Fixture.site_with
    [ Fixture.page_route "/" "Index.astro" false;
      Fixture.page_route "/lorem" "Index.astro" false;
      Fixture.page_route "/broken-500" "Index.astro" false;
      Fixture.page_route "/500" "500.astro" false;
      Fixture.endpoint_route "/legacy" "legacy.ts" ]
    [] (Some 0%nat).

Definition app : App := @App_new collaborators site true.

(** The context of request 0 for a path, and the world [render] starts the
    hooks in. *)
Definition context (path : string) : APIContext :=
  {| ctx_cookies := {| jar_id := 0; jar_request := Fixture.get path |};
     ctx_request := Fixture.get path;
     ctx_params := [];
     ctx_site := None;
     ctx_generator := "Astro v2.5.0";
     ctx_props := [];
     ctx_url := url (Fixture.get path);
     ctx_adapterName := Some "test-adapter" |}.

Definition started (path : string) : World :=
  with_locals (Fixture.get path) (JSObject []) Fixture.fresh.

End DevSite.

(** ** packages/integrations/markdoc/src/index.ts *)

(** [s.split(sep)] for a separator of one character. *)
Fixpoint split_on (sep : ascii) (s : string) : list string :=
  match s with
  | EmptyString => [EmptyString]
  | String c s' =>
      if Ascii.eqb c sep then EmptyString :: split_on sep s'
      else
        match split_on sep s' with
        | [] => [String c EmptyString]
        | piece :: pieces => String c piece :: pieces
        end
  end.

Fixpoint count_char (c : ascii) (s : string) : nat :=
  match s with
  | EmptyString => 0%nat
  | String a s' => ((if Ascii.eqb a c then 1 else 0) + count_char c s')%nat
  end.

(** [pieces.join(sep)]. *)
Definition join (sep : string) (pieces : list string) : string :=
  match pieces with
  | [] => ""
  | p :: rest => fold_left (fun acc x => acc +:+ sep +:+ x) rest p
  end.

Definition line_feed : ascii := "010"%char.

(** What [Markdoc.validate] reports for one problem: [error.id],
    [error.level], [error.message] and [lines]. *)
Record ValidateError := {
  error_id : string;
  error_level : string;
  error_message : string;
  error_lines : list nat
}.

(** The fields [getRenderModule] gives a [MarkdocError]; the line is absent
    when the error has no first line (the sum is [NaN]). *)
Record MarkdocError := {
  md_message : string;
  md_line : option nat;
  md_file : string
}.

(** The predicate of the [filter] over the validation result. *)
Definition is_reported (e : ValidateError) : bool :=
  negb (bool_decide (error_id e = "variable-undefined"))
  && (bool_decide (error_level e = "error") || bool_decide (error_level e = "critical")).

(** [getRenderModule], from [Markdoc.validate] to the [throw]: [inr tt] when
    it goes on, [inl] the error it throws.  The text of the heading is UTF-8. *)
Definition getRenderModule_validation (collection id rawData viteId : string)
    (validated : list ValidateError) : MarkdocError + unit :=
  let validationErrors := List.filter is_reported validated in
  match validationErrors with
  | [] => inr tt
  | e0 :: _ =>
      let frontmatterBlockOffset := (length (split_on line_feed rawData) + 2)%nat in
      inl {| md_message :=
               join (String line_feed "")
                 (("**" +:+ collection +:+ " → " +:+ id +:+ "** contains invalid content:")
                  :: map (fun e => "- " +:+ error_message e) validationErrors);
             md_line :=
               option_map (fun l => (frontmatterBlockOffset + l)%nat)
                          (head (error_lines e0));
             md_file := viteId |}
  end.

(** A node of the Markdoc AST: its type, its attributes, its children. *)
Inductive Node : Type :=
| mkNode (node_type : string) (attributes : list (string * JSValue))
         (children : list Node).

Definition node_type (n : Node) : string := let (t, _, _) := n in t.
Definition attributes (n : Node) : list (string * JSValue) := let (_, a, _) := n in a.
Definition children (n : Node) : list Node := let (_, _, c) := n in c.

(** [object[key]]. *)
Fixpoint get_field (key : string) (fields : list (string * JSValue)) : option JSValue :=
  match fields with
  | [] => None
  | (k, x) :: rest => if bool_decide (k = key) then Some x else get_field key rest
  end.

(** What the integration imports or is handed by the bundler: [isValidUrl]
    of [./utils.js], [pluginContext.resolve] (its [id], if any),
    [fs.existsSync(new URL(prependForwardSlash(id), 'file://'))],
    [emitESMImage] with the plugin's settings, and [JSON.stringify]. *)
Class ImageCollaborators := {
  isValidUrl : string -> bool;
  resolve : string -> string -> M (option string);
  existsSync : string -> M bool;
  emitESMImage : string -> M JSValue;
  JSON_stringify : string -> string
}.

Section Images.
Context `{ImageCollaborators}.

Definition shouldOptimizeImage (src : string) : bool :=
  negb (isValidUrl src) && negb (startsWith src "/").

(** The source of a node that the loop optimizes: an [image] whose [src] is
    a string for which [shouldOptimizeImage] holds. *)
Definition image_to_optimize (n : Node) : option string :=
  if bool_decide (node_type n = "image") then
    match get_field "src" (attributes n) with
    | Some (JSString src) => if shouldOptimizeImage src then Some src else None
    | _ => None
    end
  else None.

(** The body of the [if] in the loop: the attributes of the node after it.
    [MarkdocError] is an [Error]; it is thrown with its message. *)
Definition optimize_image (filePath src : string) (attrs : list (string * JSValue))
    : M (list (string * JSValue)) :=
  let* resolved := resolve src filePath in
  let missing :=
    Error ("Could not resolve image " +:+ JSON_stringify src +:+ " from "
           +:+ JSON_stringify filePath +:+ ". Does the file exist?") in
  match resolved with
  | Some (String c id) =>
      let* present := existsSync (String c id) in
      if present then
        let* optimized := emitESMImage (String c id) in
        ret (set_field "__optimizedSrc" optimized attrs)
      else throw missing
  | _ => throw missing
  end.

(** [for (const x of items) { await turn(x) }], with what each turn leaves
    of its item: the items are objects that the turns change in place. *)
Definition for_each {A B : Type} (turn : A -> M B) : list A -> M (list B) :=
  fix each (items : list A) : M (list B) :=
    match items with
    | [] => ret []
    | x :: rest =>
        let* x' := turn x in
        let* rest' := each rest in
        ret (x' :: rest')
    end.

(** One turn of the loop of [emitOptimizedImages]: the node, then the call
    of the function on its children. *)
Fixpoint emitOptimizedImages_node (filePath : string) (n : Node) {struct n} : M Node :=
  match n with
  | mkNode t attrs kids =>
      let* attrs' :=
        match image_to_optimize n with
        | Some src => optimize_image filePath src attrs
        | None => ret attrs
        end in
      let* kids' := for_each (emitOptimizedImages_node filePath) kids in
      ret (mkNode t attrs' kids')
  end.

(** [emitOptimizedImages(nodeChildren, ctx)]: the nodes as the call leaves
    them. *)
Definition emitOptimizedImages (filePath : string) (nodeChildren : list Node)
    : M (list Node) :=
  for_each (emitOptimizedImages_node filePath) nodeChildren.

(** Whether the loop finds anything to optimize in a tree. *)
Fixpoint has_image_to_optimize (n : Node) {struct n} : bool :=
  match n with
  | mkNode t attrs kids =>
      match image_to_optimize n with Some _ => true | None => false end
      || existsb has_image_to_optimize kids
  end.

(** What a run may do to a tree: give [__optimizedSrc] to nodes that it
    optimizes, and nothing else. *)
Inductive optimized : Node -> Node -> Prop :=
| optimized_node (t : string) (attrs attrs' : list (string * JSValue))
    (kids kids' : list Node) :
    (attrs' = attrs
     \/ (image_to_optimize (mkNode t attrs kids) <> None
         /\ exists v, attrs' = set_field "__optimizedSrc" v attrs)) ->
    Forall2 optimized kids kids' ->
    optimized (mkNode t attrs kids) (mkNode t attrs' kids').

End Images.

(** A document with a relative image inside a paragraph, and a bundler that
    resolves it. *)
Module Doc.

Definition image (src : string) : Node :=
  mkNode "image" [("src", JSString src); ("alt", JSString "a cat")] [].

Definition paragraph (kids : list Node) : Node := mkNode "paragraph" [] kids.

Definition quoted (s : string) : string :=
  String "034"%char (s +:+ String "034"%char "").

Definition collaborators : ImageCollaborators :=
  {| isValidUrl := fun s => startsWith s "http";
     resolve := fun src filePath =>
       ret (if bool_decide (src = "./cat.png") then Some "/site/src/cat.png" else None);
     existsSync := fun path => ret (bool_decide (path = "/site/src/cat.png"));
     emitESMImage := fun path => ret (JSObject [("src", JSString "/_astro/cat.hash.png")]);
     JSON_stringify := quoted |}.

Definition unreported : list ValidateError :=
  [ {| error_id := "variable-undefined"; error_level := "error";
       error_message := "Undefined variable: 'x'"; error_lines := [2%nat] |};
    {| error_id := "attribute-value-invalid"; error_level := "warning";
       error_message := "Bad value"; error_lines := [3%nat] |} ].

Definition undefined_tag : ValidateError :=
  {| error_id := "tag-undefined"; error_level := "critical";
     error_message := "Undefined tag: 'aside'"; error_lines := [4%nat; 6%nat] |}.

Definition validated : list ValidateError := (unreported ++ [undefined_tag])%list.

Definition rawData : string := "title: Cats" +:+ String line_feed "draft: false".

End Doc.


(** * Properties *)

(** ** The encoder *)

Lemma land_63 (a : N) : N.land a 63 = (a mod 64)%N.
Proof. change 63%N with (N.ones 6). now rewrite N.land_ones. Qed.

Lemma utf8_of_code_point_bytes (cp : N) :
  (cp < 1114112)%N -> Forall (fun b => (b < 256)%N) (utf8_of_code_point cp).
Proof.
  intros Hcp. unfold utf8_of_code_point.
  destruct (cp <? 128)%N eqn:H1; [apply N.ltb_lt in H1; repeat constructor; lia|].
  apply N.ltb_ge in H1.
  rewrite !land_63, !N.shiftr_div_pow2.
  change (2 ^ 6)%N with 64%N. change (2 ^ 12)%N with 4096%N.
  change (2 ^ 18)%N with 262144%N.
  destruct (cp <? 2048)%N eqn:H2; [apply N.ltb_lt in H2|apply N.ltb_ge in H2].
  { repeat constructor.
    - assert (cp / 64 < 32)%N by (apply N.Div0.div_lt_upper_bound; lia). lia.
    - pose proof (N.mod_lt cp 64). lia. }
  destruct (cp <? 65536)%N eqn:H3; [apply N.ltb_lt in H3|apply N.ltb_ge in H3].
  { repeat constructor.
    - assert (cp / 4096 < 16)%N by (apply N.Div0.div_lt_upper_bound; lia). lia.
    - pose proof (N.mod_lt (cp / 64) 64). lia.
    - pose proof (N.mod_lt cp 64). lia. }
  repeat constructor.
  - assert (cp / 262144 < 5)%N by (apply N.Div0.div_lt_upper_bound; lia). lia.
  - pose proof (N.mod_lt (cp / 4096) 64). lia.
  - pose proof (N.mod_lt (cp / 64) 64). lia.
  - pose proof (N.mod_lt cp 64). lia.
Qed.

Lemma surrogate_pair_code_point (c d : N) :
  is_high_surrogate c = true -> is_low_surrogate d = true ->
  (65536 + N.shiftl (c - 55296) 10 + (d - 56320) < 1114112)%N.
Proof.
  unfold is_high_surrogate, is_low_surrogate.
  rewrite !andb_true_iff, !N.leb_le. intros [Hc1 Hc2] [Hd1 Hd2].
  rewrite N.shiftl_mul_pow2. change (2 ^ 10)%N with 1024%N. lia.
Qed.

Local Opaque utf8_of_code_point.

(** What [encode] produces are bytes. *)
Lemma TextEncoder_encode_bytes (s : JSText) :
  Forall (fun c => (c < 65536)%N) s ->
  Forall (fun b => (b < 256)%N) (TextEncoder_encode s).
Proof.
  remember (length s) as n eqn:Hn.
  revert s Hn. induction n as [n IH] using lt_wf_ind. intros s Hn Hs.
  destruct s as [|c rest]; [constructor|].
  inversion Hs as [|? ? Hc Hrest]; subst.
  assert (Forall (fun b => (b < 256)%N) (TextEncoder_encode rest)) as Hrec
    by (apply (IH (length rest)); simpl; [lia | reflexivity | exact Hrest]).
  simpl. destruct (is_high_surrogate c) eqn:Hh.
  - destruct rest as [|d rest'].
    + apply utf8_of_code_point_bytes. lia.
    + destruct (is_low_surrogate d) eqn:Hl.
      * apply Forall_app. split.
        -- apply utf8_of_code_point_bytes. now apply surrogate_pair_code_point.
        -- inversion Hrest; subst.
           apply (IH (length rest')); simpl; [lia | reflexivity | assumption].
      * apply Forall_app. split; [apply utf8_of_code_point_bytes; lia | exact Hrec].
  - destruct (is_low_surrogate c).
    + apply Forall_app. split; [apply utf8_of_code_point_bytes; lia | exact Hrec].
    + apply Forall_app. split; [apply utf8_of_code_point_bytes; lia | exact Hrec].
Qed.

Local Transparent utf8_of_code_point.

(** "hi", "é", "€", an emoji written as a surrogate pair, a lone surrogate. *)
Example TextEncoder_encode_examples :
  TextEncoder_encode (text_of_ascii "hi") = [104; 105]%N
  /\ TextEncoder_encode [233]%N = [195; 169]%N
  /\ TextEncoder_encode [8364]%N = [226; 130; 172]%N
  /\ TextEncoder_encode [55357; 56832]%N = [240; 159; 152; 128]%N
  /\ TextEncoder_encode [55357; 104]%N = [239; 191; 189; 104]%N.
Proof. repeat split; reflexivity. Qed.

(** ** The monad *)

Lemma bind_Normal {A B} (m : M A) (k : A -> M B) (w w' : World) (a : A) :
  m w = (w', Normal a) -> bind m k w = k a w'.
Proof. intros E. unfold bind. now rewrite E. Qed.

Lemma bind_Throw {A B} (m : M A) (k : A -> M B) (w w' : World) (e : Thrown) :
  m w = (w', Throw e) -> bind m k w = (w', Throw e).
Proof. intros E. unfold bind. now rewrite E. Qed.

Lemma try_catch_Normal {A} (m : M A) (h : Thrown -> M A) (w w' : World) (a : A) :
  m w = (w', Normal a) -> try_catch m h w = (w', Normal a).
Proof. intros E. unfold try_catch. now rewrite E. Qed.

Lemma try_catch_Throw {A} (m : M A) (h : Thrown -> M A) (w w' : World) (e : Thrown) :
  m w = (w', Throw e) -> try_catch m h w = h e w'.
Proof. intros E. unfold try_catch. now rewrite E. Qed.

(** ** Symbol-keyed properties of a request *)

Lemma props_of_set_props (r : Request) (p : RequestProps) (w : World) :
  props_of (set_props r p w) r = p.
Proof. unfold props_of, set_props; simpl. now rewrite lookup_insert_eq. Qed.

Lemma props_of_set_props_other (r r' : Request) (p : RequestProps) (w : World) :
  request_id r <> request_id r' -> props_of (set_props r p w) r' = props_of w r'.
Proof. intros Hne. unfold props_of, set_props; simpl. now rewrite lookup_insert_ne. Qed.

Lemma Reflect_set_get_locals (r : Request) (v : JSValue) (w : World) :
  exists w', Reflect_set_locals r v w = (w', Normal tt)
             /\ Reflect_get_locals r w' = (w', Normal v).
Proof.
  eexists; split; [reflexivity|].
  unfold Reflect_get_locals. now rewrite props_of_set_props.
Qed.

(** ** The request context *)

Section ContextProperties.
Context `{Collaborators}.

(** What [createAPIContext] captures from its arguments. *)
Lemma createAPIContext_captures (a : APIContextArgs) (w w' : World) (context : APIContext) :
  createAPIContext a w = (w', Normal context) ->
  ctx_request context = arg_request a
  /\ ctx_adapterName context = arg_adapterName a
  /\ ctx_params context = arg_params a
  /\ ctx_props context = arg_props a.
Proof.
  unfold createAPIContext, bind, AstroCookies_new, ret, throw.
  destruct (arg_site a) as [[|c s]|]; simpl.
  - intros [= _ <-]; now simpl.
  - destruct (URL_parse (String c s)); simpl; [|discriminate].
    intros [= _ <-]; now simpl.
  - intros [= _ <-]; now simpl.
Qed.

(** The setter rejects exactly the values whose [typeof] is not ['object']. *)
Lemma locals_set_rejects (context : APIContext) (v : JSValue) (w : World) :
  typeof v <> "object" ->
  locals_set context v w = (w, Throw (AstroError LocalsNotAnObject)).
Proof. intros Hv. unfold locals_set. now destruct (decide _). Qed.

Lemma locals_set_round_trip (context : APIContext) (v : JSValue) (w : World) :
  typeof v = "object" ->
  exists w', locals_set context v w = (w', Normal tt)
             /\ locals_get context w' = (w', Normal v).
Proof.
  intros Hv. unfold locals_set, locals_get.
  destruct (decide _) as [Hne|_]; [contradiction|].
  apply Reflect_set_get_locals.
Qed.

(** Object literals and arrays are accepted and read back. *)
Lemma locals_set_object (context : APIContext) (v : JSValue) (w : World) :
  is_object v = true ->
  exists w', locals_set context v w = (w', Normal tt)
             /\ locals_get context w' = (w', Normal v).
Proof.
  intros Ho. apply locals_set_round_trip. now destruct v.
Qed.

(** Every primitive other than [null] is rejected. *)
Lemma locals_set_rejects_primitive (context : APIContext) (v : JSValue) (w : World) :
  is_primitive v = true -> v <> JSNull ->
  locals_set context v w = (w, Throw (AstroError LocalsNotAnObject)).
Proof.
  intros Hp Hn. apply locals_set_rejects.
  destruct v; simpl in *; try discriminate; congruence.
Qed.

(** So is a function, whose [typeof] is ['function']. *)
Lemma locals_set_rejects_function (context : APIContext) (ref : nat) (w : World) :
  locals_set context (JSFunction ref) w = (w, Throw (AstroError LocalsNotAnObject)).
Proof. now apply locals_set_rejects. Qed.

(** C2 (the code departs from the claim at [null]): [null] is a primitive,
    not an object, but [typeof null] is ['object'], so assigning [null] to
    [context.locals] is not rejected: it is stored and read back. *)
Theorem locals_set_accepts_null (context : APIContext) (w : World) :
  is_primitive JSNull = true
  /\ is_object JSNull = false
  /\ exists w', locals_set context JSNull w = (w', Normal tt)
                /\ locals_get context w' = (w', Normal JSNull).
Proof.
  split; [reflexivity|]. split; [reflexivity|]. now apply locals_set_round_trip.
Qed.

(** C7: on a context made by [createAPIContext], [clientAddress] returns the
    value attached to the request when there is one; when there is none it
    throws [ClientAddressNotAvailable] for the configured (non-empty) adapter
    name and [StaticClientAddressNotAvailable] when no adapter is configured. *)
Theorem clientAddress_accessor (a : APIContextArgs) (w0 w1 : World)
    (context : APIContext) (w : World) :
  createAPIContext a w0 = (w1, Normal context) ->
  (forall v, clientAddressSymbol (props_of w (arg_request a)) = Some v ->
             clientAddress context w = (w, Normal v))
  /\ (forall name, clientAddressSymbol (props_of w (arg_request a)) = None ->
                   arg_adapterName a = Some name -> name <> "" ->
                   clientAddress context w
                   = (w, Throw (AstroError (ClientAddressNotAvailable name))))
  /\ (clientAddressSymbol (props_of w (arg_request a)) = None ->
      arg_adapterName a = None ->
      clientAddress context w = (w, Throw (AstroError StaticClientAddressNotAvailable))).
Proof.
  intros Hc. apply createAPIContext_captures in Hc as (Hr & Ha & _).
  unfold clientAddress. rewrite Hr, Ha.
  split; [|split].
  - intros v ->. reflexivity.
  - intros name -> -> Hne. destruct name; [contradiction|reflexivity].
  - intros -> ->. reflexivity.
Qed.

(** The empty string is how a manifest spells "no adapter". *)
Lemma clientAddress_empty_adapter_name (context : APIContext) (w : World) :
  clientAddressSymbol (props_of w (ctx_request context)) = None ->
  ctx_adapterName context = Some "" ->
  clientAddress context w = (w, Throw (AstroError StaticClientAddressNotAvailable)).
Proof. intros Hs Ha. unfold clientAddress. now rewrite Hs, Ha. Qed.

End ContextProperties.

(** ** The redirect guard *)

Lemma isRedirect_range (statusCode : Z) :
  isRedirect statusCode = true <-> 300 <= statusCode <= 399.
Proof. unfold isRedirect. rewrite andb_true_iff, Z.leb_le, Z.ltb_lt. lia. Qed.

(** C8: [throwIfRedirectNotAllowed] throws [StaticRedirectNotAvailable]
    exactly when the status is between 300 and 399 and the output mode is not
    ['server']; otherwise it returns. *)
Theorem throwIfRedirectNotAllowed_iff (r : Response) (output : string) (w : World) :
  (300 <= status r <= 399 /\ output <> "server" ->
   throwIfRedirectNotAllowed r output w
   = (w, Throw (AstroError StaticRedirectNotAvailable)))
  /\ (~ (300 <= status r <= 399 /\ output <> "server") ->
      throwIfRedirectNotAllowed r output w = (w, Normal tt)).
Proof.
  unfold throwIfRedirectNotAllowed.
  destruct (isRedirect (status r)) eqn:Hr.
  - apply isRedirect_range in Hr.
    destruct (bool_decide (output = "server")) eqn:Ho; simpl.
    + apply bool_decide_eq_true in Ho. split; [intros [_ Hn]; contradiction | reflexivity].
    + apply bool_decide_eq_false in Ho. split; [reflexivity | intros Hn; tauto].
  - assert (~ 300 <= status r <= 399) as Hn.
    { intros Hin. apply isRedirect_range in Hin. congruence. }
    rewrite andb_false_r. split; [tauto | reflexivity].
Qed.

(** ** The endpoint invoker *)

Section CallProperties.
Context `{Collaborators}.

(** The continuation handed to the middleware runner. *)
Lemma call_responseFunction_development (env : Environment) (ctx : RenderContext)
    (context : APIContext) (preliminary : EndpointValue) (w : World) (l : JSValue) :
  env_mode env = "development" ->
  locals_get context w = (w, Normal l) ->
  call_responseFunction env ctx context preliminary w
  = if isValueSerializable l
    then (w, Normal preliminary)
    else (w, Throw (AstroError (LocalsNotSerializable (rc_pathname ctx)))).
Proof.
  intros Hm Hl. unfold call_responseFunction.
  destruct (decide _) as [_|Hn]; [|contradiction].
  rewrite (bind_Normal _ _ _ _ _ Hl).
  now destruct (isValueSerializable l).
Qed.

Lemma call_responseFunction_production (env : Environment) (ctx : RenderContext)
    (context : APIContext) (preliminary : EndpointValue) (w : World) :
  env_mode env <> "development" ->
  call_responseFunction env ctx context preliminary w = (w, Normal preliminary).
Proof.
  intros Hm. unfold call_responseFunction.
  now destruct (decide _) as [Hd|_]; [contradiction|].
Qed.

(** How [call] begins, up to the middleware step. *)
Lemma call_unfold (mod_ : option ComponentInstance) (env : Environment)
    (ctx : RenderContext) (logging : LogOptions) (middleware : option Middleware)
    (w0 w1 w2 : World) (context : APIContext) (preliminary : EndpointValue) :
  createAPIContext (call_context_args env ctx) w0 = (w1, Normal context) ->
  renderEndpoint mod_ context (env_ssr env) w1 = (w2, Normal preliminary) ->
  call mod_ env ctx logging middleware w0
  = (let* result :=
       match middleware with
       | Some {| onRequest := Some hook |} =>
           if body_is_null preliminary then
             callMiddleware EndpointValue _ hook context
               (call_responseFunction env ctx context preliminary)
           else
             let* _ := warn (env_logging env) "middleware" middleware_warning in
             ret preliminary
       | _ => ret preliminary
       end in
     call_result mod_ env logging context result) w2.
Proof.
  intros Hc Hp. unfold call.
  rewrite (bind_Normal _ _ _ _ _ Hc).
  now rewrite (bind_Normal _ _ _ _ _ Hp).
Qed.

(** C9: on the middleware path of [call] the runner is given the
    continuation [call_responseFunction]; in ['development'] mode that
    continuation reads [locals] and throws [LocalsNotSerializable] when they
    are not serializable, before the preliminary response is returned through
    it; in any other mode it returns the preliminary response unchecked. *)
Theorem call_checks_locals_in_development (mod_ : option ComponentInstance)
    (env : Environment) (ctx : RenderContext) (logging : LogOptions) (hook : nat)
    (w0 w1 w2 : World) (context : APIContext) (preliminary : EndpointValue) :
  createAPIContext (call_context_args env ctx) w0 = (w1, Normal context) ->
  renderEndpoint mod_ context (env_ssr env) w1 = (w2, Normal preliminary) ->
  body_is_null preliminary = true ->
  call mod_ env ctx logging (Some {| onRequest := Some hook |}) w0
  = (let* result :=
       callMiddleware EndpointValue _ hook context
         (call_responseFunction env ctx context preliminary) in
     call_result mod_ env logging context result) w2
  /\ forall (w : World) (l : JSValue),
      locals_get context w = (w, Normal l) ->
      (env_mode env = "development" -> isValueSerializable l = false ->
       call_responseFunction env ctx context preliminary w
       = (w, Throw (AstroError (LocalsNotSerializable (rc_pathname ctx)))))
      /\ (env_mode env = "development" -> isValueSerializable l = true ->
          call_responseFunction env ctx context preliminary w = (w, Normal preliminary))
      /\ (env_mode env <> "development" ->
          call_responseFunction env ctx context preliminary w = (w, Normal preliminary)).
Proof.
  intros Hc Hp Hb. split.
  - rewrite (call_unfold _ _ _ _ _ _ _ _ _ _ Hc Hp). now rewrite Hb.
  - intros w l Hl. repeat split.
    + intros Hm Hs. rewrite (call_responseFunction_development _ _ _ _ _ _ Hm Hl).
      now rewrite Hs.
    + intros Hm Hs. rewrite (call_responseFunction_development _ _ _ _ _ _ Hm Hl).
      now rewrite Hs.
    + apply call_responseFunction_production.
Qed.

(** C4, amended: with an [onRequest] hook configured, the preliminary
    response goes through the middleware runner exactly when its body is
    [null]; whenever the runner is bypassed the warning is emitted, for a
    simple body and for a [Response] that has a body alike. *)
Theorem call_middleware_gate (mod_ : option ComponentInstance)
    (env : Environment) (ctx : RenderContext) (logging : LogOptions) (hook : nat)
    (w0 w1 w2 : World) (context : APIContext) (preliminary : EndpointValue) :
  createAPIContext (call_context_args env ctx) w0 = (w1, Normal context) ->
  renderEndpoint mod_ context (env_ssr env) w1 = (w2, Normal preliminary) ->
  (body_is_null preliminary = true ->
   call mod_ env ctx logging (Some {| onRequest := Some hook |}) w0
   = (let* result :=
        callMiddleware EndpointValue _ hook context
          (call_responseFunction env ctx context preliminary) in
      call_result mod_ env logging context result) w2)
  /\ (body_is_null preliminary = false ->
      exists w3,
        warn (env_logging env) "middleware" middleware_warning w2 = (w3, Normal tt)
        /\ w_console w3
           = (w_console w2 ++ [{| msg_level := level_warn;
                                  msg_options := env_logging env;
                                  msg_label := "middleware";
                                  msg_text := middleware_warning |}])%list
        /\ call mod_ env ctx logging (Some {| onRequest := Some hook |}) w0
           = call_result mod_ env logging context preliminary w3).
Proof.
  intros Hc Hp. split; intros Hb.
  - rewrite (call_unfold _ _ _ _ _ _ _ _ _ _ Hc Hp). now rewrite Hb.
  - eexists. split; [reflexivity|]. split; [reflexivity|].
    rewrite (call_unfold _ _ _ _ _ _ _ _ _ _ Hc Hp). now rewrite Hb.
Qed.

End CallProperties.

(** ** Headers *)

Lemma Headers_set_removes (k : string) (h : Headers) :
  filter (fun kv : string * string => fst kv = k)
         (filter (fun kv : string * string => fst kv <> k) h) = [].
Proof.
  induction h as [|[k' v'] h IH]; [reflexivity|].
  rewrite (filter_cons (fun kv : string * string => fst kv <> k)).
  case_decide as Hk; [|exact IH].
  rewrite filter_cons_False; [exact IH | simpl in *; congruence].
Qed.

Lemma Headers_get_set (name value : string) (h : Headers) :
  Headers_get name (Headers_set name value h) = Some value.
Proof.
  unfold Headers_get, Headers_set.
  rewrite filter_app, Headers_set_removes.
  rewrite filter_cons_True by reflexivity. reflexivity.
Qed.

Lemma Headers_get_set_other (name name' value : string) (h : Headers) :
  lowercase name <> lowercase name' ->
  Headers_get name' (Headers_set name value h) = Headers_get name' h.
Proof.
  intros Hne. unfold Headers_get, Headers_set.
  rewrite filter_app.
  rewrite filter_cons_False by (simpl; congruence).
  rewrite filter_nil, app_nil_r.
  replace (filter (fun kv : string * string => fst kv = lowercase name')
             (filter (fun kv : string * string => fst kv <> lowercase name) h))
    with (filter (fun kv : string * string => fst kv = lowercase name') h);
    [reflexivity|].
  induction h as [|[k v] h IH]; [reflexivity|].
  rewrite (filter_cons (fun kv : string * string => fst kv <> lowercase name)).
  case_decide as Hk.
  - rewrite !filter_cons. case_decide; [now rewrite IH | exact IH].
  - rewrite filter_cons_False; [exact IH|].
    simpl in *. congruence.
Qed.

(** ** The orchestrator *)

Section AppProperties.
Context `{Collaborators}.

Lemma App_match_unmatched (app : App) (request : Request) :
  matchRoute (lookup_path app request) (app_manifestData app) = None ->
  App_match app request false = None.
Proof.
  intros Hm. unfold App_match. destruct (bool_decide _); [reflexivity|].
  now rewrite Hm.
Qed.

Lemma App_match_prerendered (app : App) (request : Request) (rd : RouteData)
    (matchNotFound : bool) :
  matchRoute (lookup_path app request) (app_manifestData app) = Some rd ->
  prerender rd = true ->
  App_match app request matchNotFound = None.
Proof.
  intros Hm Hp. unfold App_match. destruct (bool_decide _); [reflexivity|].
  now rewrite Hm, Hp.
Qed.

Lemma App_match_asset (app : App) (request : Request) (matchNotFound : bool) :
  pathname (url request) ∈ mf_assets (app_manifest app) ->
  App_match app request matchNotFound = None.
Proof.
  intros Ha. unfold App_match. now rewrite bool_decide_eq_true_2.
Qed.

(** When neither lookup matches, [render] answers 404 with no body and
    touches nothing. *)
Lemma App_render_unmatched (fuel : nat) (app : App) (request : Request) (w : World) :
  App_match app request false = None ->
  App_match app request true = None ->
  App_render (S fuel) app request None w = (w, Normal (bodiless 404 "Not found" [])).
Proof.
  intros H1 H2. simpl. unfold render_match. now rewrite H1, H2.
Qed.

(** C3, amended: for a request whose path matches no route, a not-found
    lookup tries the fixed [/404] pattern provided the path is not a public
    asset (assets are ignored before any matching); if the [/404] route is
    pre-rendered the matcher reports no match and [render] ends with a
    status-404 response without a body. *)
Theorem match_not_found_lookup (app : App) (request : Request) :
  matchRoute (lookup_path app request) (app_manifestData app) = None ->
  (pathname (url request) ∉ mf_assets (app_manifest app) ->
   App_match app request true
   = match matchRoute "/404" (app_manifestData app) with
     | Some notFoundRouteData =>
         if prerender notFoundRouteData then None else Some notFoundRouteData
     | None => None
     end)
  /\ (forall notFoundRouteData,
        matchRoute "/404" (app_manifestData app) = Some notFoundRouteData ->
        prerender notFoundRouteData = true ->
        App_match app request true = None
        /\ forall fuel w,
            App_render (S fuel) app request None w
            = (w, Normal (bodiless 404 "Not found" []))).
Proof.
  intros Hm. split.
  - intros Ha. unfold App_match. rewrite bool_decide_eq_false_2 by exact Ha.
    now rewrite Hm.
  - intros nf Hnf Hp.
    assert (App_match app request true = None) as Ht.
    { unfold App_match. destruct (bool_decide _); [reflexivity|].
      now rewrite Hm, Hnf, Hp. }
    split; [exact Ht|]. intros fuel w.
    apply App_render_unmatched; [now apply App_match_unmatched | exact Ht].
Qed.

(** C10: when the path of a request matches a pre-rendered route,
    [App.match] returns [undefined] with and without [matchNotFound] (the
    [/404] pattern plays no part), and [render] answers with the bodiless 404
    response whatever other routes the manifest has. *)
Theorem match_prerendered_route (app : App) (request : Request) (rd : RouteData) :
  matchRoute (lookup_path app request) (app_manifestData app) = Some rd ->
  prerender rd = true ->
  (forall matchNotFound, App_match app request matchNotFound = None)
  /\ forall fuel w,
      App_render (S fuel) app request None w
      = (w, Normal (bodiless 404 "Not found" [])).
Proof.
  intros Hm Hp.
  assert (forall b, App_match app request b = None) as Hn
    by (intros b; now apply App_match_prerendered with rd).
  split; [exact Hn|]. intros fuel w. now apply App_render_unmatched.
Qed.

(** [#callEndpoint] up to the result of the invoker. *)
Lemma App_callEndpoint_unfold (render : Request -> option RouteData -> M Response)
    (app : App) (request : Request) (rd : RouteData)
    (mod_ : option ComponentInstance) (st : Z) (w w1 w2 : World)
    (ctx : RenderContext) (result : EndpointCallResult) :
  createRenderContext (callEndpoint_context_args app request rd mod_ st) w
  = (w1, Normal ctx) ->
  call mod_ (app_env app) ctx (app_logging app) (mf_middleware (app_manifest app)) w1
  = (w2, Normal result) ->
  App_callEndpoint render app request rd mod_ st w
  = match result with
    | response r =>
        if bool_decide (Headers_get "X-Astro-Response" (headers r) = Some "Not-Found")
        then
          (let* fourOhFourRequest := Request_new (URL_resolve "/404" (url request)) in
           match App_match app fourOhFourRequest false with
           | Some fourOhFourRouteData =>
               render fourOhFourRequest (Some fourOhFourRouteData)
           | None => ret r
           end) w2
        else (w2, Normal r)
    | simple body _ cookies =>
        (w2,
         Normal
           (attachToResponse
              {| status := 200; statusText := "";
                 headers :=
                   Headers_set "Content-Length"
                     (Number_toString (length (TextEncoder_encode body)))
                     (match mime_getType (pathname (url request)) with
                      | Some (String c s) =>
                          Headers_set "Content-Type" (String c s +:+ ";charset=utf-8") []
                      | _ => Headers_set "Content-Type" "text/plain;charset=utf-8" []
                      end);
                 body := Some (TextEncoder_encode body);
                 astroCookies := None |}
              cookies))
    end.
Proof.
  intros Hc Hr. unfold App_callEndpoint.
  rewrite (bind_Normal _ _ _ _ _ Hc).
  rewrite (bind_Normal _ _ _ _ _ Hr).
  destruct result as [b e c|r]; [reflexivity|].
  now destruct (bool_decide _).
Qed.

(** C5: for a simple endpoint result the final response has status 200,
    [Content-Type] taken from the extension of the URL's path (or
    [text/plain;charset=utf-8] when [mime] knows none), [Content-Length] equal
    to the number of UTF-8 bytes of the body, those bytes as its body, and the
    invoker's cookies attached; for the body "hi" without a known extension
    the headers are [text/plain;charset=utf-8] and [2]. *)
Theorem callEndpoint_simple_body (render : Request -> option RouteData -> M Response)
    (app : App) (request : Request) (rd : RouteData)
    (mod_ : option ComponentInstance) (st : Z) (w w1 w2 : World)
    (ctx : RenderContext) (text : JSText) (encoding : option string)
    (cookies : AstroCookies) :
  createRenderContext (callEndpoint_context_args app request rd mod_ st) w
  = (w1, Normal ctx) ->
  call mod_ (app_env app) ctx (app_logging app) (mf_middleware (app_manifest app)) w1
  = (w2, Normal (simple text encoding cookies)) ->
  exists r,
    App_callEndpoint render app request rd mod_ st w = (w2, Normal r)
    /\ status r = 200
    /\ Headers_get "Content-Type" (headers r)
       = Some (content_type_of (pathname (url request)))
    /\ Headers_get "Content-Length" (headers r)
       = Some (Number_toString (length (TextEncoder_encode text)))
    /\ body r = Some (TextEncoder_encode text)
    /\ astroCookies r = Some cookies
    /\ (text = text_of_ascii "hi" ->
        mime_getType (pathname (url request)) = None ->
        headers r = [("content-type", "text/plain;charset=utf-8");
                     ("content-length", "2")]).
Proof.
  intros Hc Hr. eexists. split.
  { rewrite (App_callEndpoint_unfold _ _ _ _ _ _ _ _ _ _ _ Hc Hr). reflexivity. }
  simpl. split; [reflexivity|]. split.
  { rewrite Headers_get_set_other by (vm_compute; discriminate).
    unfold content_type_of.
    destruct (mime_getType _) as [[|c s]|]; apply Headers_get_set. }
  split; [apply Headers_get_set|].
  split; [reflexivity|]. split; [reflexivity|].
  intros -> ->. reflexivity.
Qed.

(** C6: when the invoker returns a [Response] whose [X-Astro-Response]
    header is [Not-Found], [#callEndpoint] builds a request for [/404] and
    matches it; if a route matches, the answer is [render] of that request and
    route, not the sentinel; the sentinel is returned only if none matches. *)
Theorem callEndpoint_not_found_sentinel (fuel : nat) (app : App) (request : Request)
    (rd : RouteData) (mod_ : option ComponentInstance) (st : Z) (w w1 w2 : World)
    (ctx : RenderContext) (r : Response) :
  createRenderContext (callEndpoint_context_args app request rd mod_ st) w
  = (w1, Normal ctx) ->
  call mod_ (app_env app) ctx (app_logging app) (mf_middleware (app_manifest app)) w1
  = (w2, Normal (response r)) ->
  Headers_get "X-Astro-Response" (headers r) = Some "Not-Found" ->
  exists w3 fourOhFourRequest,
    Request_new (URL_resolve "/404" (url request)) w2 = (w3, Normal fourOhFourRequest)
    /\ pathname (url fourOhFourRequest) = "/404"
    /\ (forall fourOhFourRouteData,
          App_match app fourOhFourRequest false = Some fourOhFourRouteData ->
          App_callEndpoint (App_render fuel app) app request rd mod_ st w
          = App_render fuel app fourOhFourRequest (Some fourOhFourRouteData) w3)
    /\ (App_match app fourOhFourRequest false = None ->
        App_callEndpoint (App_render fuel app) app request rd mod_ st w
        = (w3, Normal r)).
Proof.
  intros Hc Hr Hh. eexists. eexists. split; [reflexivity|]. split; [reflexivity|].
  rewrite (App_callEndpoint_unfold _ _ _ _ _ _ _ _ _ _ _ Hc Hr).
  rewrite bool_decide_eq_true_2 by exact Hh.
  split.
  - intros rd404 Hm. erewrite bind_Normal by reflexivity. simpl. now rewrite Hm.
  - intros Hm. erewrite bind_Normal by reflexivity. simpl. now rewrite Hm.
Qed.

(** For an endpoint route, [render] is [#callEndpoint] on the request with
    fresh locals. *)
Lemma App_render_endpoint (fuel : nat) (app : App) (request : Request)
    (routeData : option RouteData) (rd : RouteData) (st : Z) (w : World) :
  render_match app request routeData = Some (rd, st) ->
  route_type rd = endpoint ->
  App_render (S fuel) app request routeData w
  = App_callEndpoint (App_render fuel app) app request rd
      (mf_pageMap (app_manifest app) !! component rd)
      (if bool_decide (route rd = "/404") then 404 else st)
      (fst (Reflect_set_locals request (JSObject []) w)).
Proof.
  intros Hm He. simpl. rewrite Hm. unfold render_matched.
  erewrite bind_Normal by reflexivity. now rewrite He.
Qed.

End AppProperties.

(** ** Render failures and the [/500] fallback *)

Section FallbackProperties.
Context `{Collaborators}.

Lemma nullish_or_not (e : Thrown) :
  (e = ThrownValue JSUndefined \/ e = ThrownValue JSNull)
  \/ (e <> ThrownValue JSUndefined /\ e <> ThrownValue JSNull).
Proof.
  destruct e as [| | | |[]]; try (right; split; discriminate); left; tauto.
Qed.

Lemma App_renderPage_success (app : App) (request : Request) (rd : RouteData)
    (info : RouteInfo) (mod_ : option ComponentInstance) (st : Z) (w w1 : World)
    (r : Response) :
  routeDataToRouteInfo_get app rd = Some info ->
  renderPage_attempt app request rd info mod_ st w = (w1, Normal r) ->
  App_renderPage app request rd mod_ st w = (w1, Normal r).
Proof.
  intros Hi Ht. unfold App_renderPage. rewrite Hi. now apply try_catch_Normal.
Qed.

(** A failure inside the [try] block is logged and becomes a bare 500,
    provided the thrown value is one whose [stack] can be read. *)
Lemma App_renderPage_failure (app : App) (request : Request) (rd : RouteData)
    (info : RouteInfo) (mod_ : option ComponentInstance) (st : Z) (w w1 : World)
    (e : Thrown) :
  routeDataToRouteInfo_get app rd = Some info ->
  renderPage_attempt app request rd info mod_ st w = (w1, Throw e) ->
  e <> ThrownValue JSUndefined -> e <> ThrownValue JSNull ->
  App_renderPage app request rd mod_ st w
  = (logged app (error_text e) w1, Normal (bodiless 500 "Internal server error" [])).
Proof.
  intros Hi Ht Hu Hn. unfold App_renderPage. rewrite Hi.
  rewrite (try_catch_Throw _ _ _ _ _ Ht).
  unfold renderPage_catch.
  assert (error_description e w1 = (w1, Normal (error_text e))) as Hd.
  { unfold error_description. destruct e as [| | | |[]]; try reflexivity; contradiction. }
  rewrite (bind_Normal _ _ _ _ _ Hd). reflexivity.
Qed.

(** When the thrown value is [undefined] or [null], the [catch] block itself
    throws and [#renderPage] does not return a response. *)
Lemma App_renderPage_nullish_failure (app : App) (request : Request) (rd : RouteData)
    (info : RouteInfo) (mod_ : option ComponentInstance) (st : Z) (w w1 : World)
    (e : Thrown) :
  routeDataToRouteInfo_get app rd = Some info ->
  renderPage_attempt app request rd info mod_ st w = (w1, Throw e) ->
  e = ThrownValue JSUndefined \/ e = ThrownValue JSNull ->
  exists message, App_renderPage app request rd mod_ st w = (w1, Throw (TypeError message)).
Proof.
  intros Hi Ht He. unfold App_renderPage. rewrite Hi.
  rewrite (try_catch_Throw _ _ _ _ _ Ht).
  destruct He as [-> | ->]; eexists; reflexivity.
Qed.

(** [#renderPage] never lets a [Throw] through as anything else, and the
    fallback of [render] turns every [Throw] into the first response. *)
Lemma render_matched_page (render : Request -> option RouteData -> M Response)
    (app : App) (request : Request) (rd : RouteData) (st : Z) (w w1 : World)
    (r : Response) :
  route_type rd = page ->
  App_renderPage app request rd (mf_pageMap (app_manifest app) !! component rd)
    (if bool_decide (route rd = "/404") then 404 else st)
    (fst (Reflect_set_locals request (JSObject []) w))
  = (w1, Normal r) ->
  render_matched render app request rd st w
  = if bool_decide (status r = 500) then
      match matchRoute "/500" (app_manifestData app) with
      | Some fiveHundredRouteData =>
          match App_renderPage app request fiveHundredRouteData
                  (mf_pageMap (app_manifest app) !! component fiveHundredRouteData)
                  500 w1 with
          | (w2, Normal fiveHundredResponse) => (w2, Normal fiveHundredResponse)
          | (w2, Throw _) => (w2, Normal r)
          | (w2, Diverge) => (w2, Diverge)
          end
      | None => (w1, Normal r)
      end
    else (w1, Normal r).
Proof.
  intros Hp Hr. unfold render_matched.
  erewrite bind_Normal by reflexivity. rewrite Hp.
  simpl in Hr. rewrite (bind_Normal _ _ _ _ _ Hr).
  destruct (bool_decide (status r = 500)); [|reflexivity].
  destruct (matchRoute "/500" (app_manifestData app)) as [r5|]; [|reflexivity].
  unfold try_catch.
  destruct (App_renderPage app request r5 _ 500 w1) as [w2 [r'| e |]]; reflexivity.
Qed.

(** Recovered once: when the [try] block of the page's [#renderPage] throws
    a value other than [undefined] and [null], [render] logs it and attempts
    the [/500] route once, with status 500: the answer is the response of
    that single [#renderPage] when it returns one, and the bare 500 when
    there is no [/500] route or when the fallback throws. *)
Lemma render_failure_falls_back_once (fuel : nat) (app : App) (request : Request)
    (routeData : option RouteData) (rd : RouteData) (st : Z) (info : RouteInfo)
    (w w1 : World) (e : Thrown) :
  render_match app request routeData = Some (rd, st) ->
  route_type rd = page ->
  routeDataToRouteInfo_get app rd = Some info ->
  renderPage_attempt app request rd info
    (mf_pageMap (app_manifest app) !! component rd)
    (if bool_decide (route rd = "/404") then 404 else st)
    (fst (Reflect_set_locals request (JSObject []) w))
  = (w1, Throw e) ->
  e <> ThrownValue JSUndefined -> e <> ThrownValue JSNull ->
  App_render (S fuel) app request routeData w
  = match matchRoute "/500" (app_manifestData app) with
    | Some fiveHundredRouteData =>
        match App_renderPage app request fiveHundredRouteData
                (mf_pageMap (app_manifest app) !! component fiveHundredRouteData)
                500 (logged app (error_text e) w1) with
        | (w2, Normal fiveHundredResponse) => (w2, Normal fiveHundredResponse)
        | (w2, Throw _) => (w2, Normal (bodiless 500 "Internal server error" []))
        | (w2, Diverge) => (w2, Diverge)
        end
    | None =>
        (logged app (error_text e) w1,
         Normal (bodiless 500 "Internal server error" []))
    end.
Proof.
  intros Hm Hp Hi Ht Hu Hn. simpl. rewrite Hm.
  pose proof (App_renderPage_failure _ _ _ _ _ _ _ _ _ Hi Ht Hu Hn) as Hf.
  rewrite (render_matched_page _ _ _ _ _ _ _ _ Hp Hf). reflexivity.
Qed.

(** If the fallback fails as well, the answer is the bare 500. *)
Lemma render_failure_of_fallback (fuel : nat) (app : App) (request : Request)
    (routeData : option RouteData) (rd r5 : RouteData) (st : Z) (info info5 : RouteInfo)
    (w w1 w2 : World) (e e5 : Thrown) :
  render_match app request routeData = Some (rd, st) ->
  route_type rd = page ->
  routeDataToRouteInfo_get app rd = Some info ->
  renderPage_attempt app request rd info
    (mf_pageMap (app_manifest app) !! component rd)
    (if bool_decide (route rd = "/404") then 404 else st)
    (fst (Reflect_set_locals request (JSObject []) w))
  = (w1, Throw e) ->
  e <> ThrownValue JSUndefined -> e <> ThrownValue JSNull ->
  matchRoute "/500" (app_manifestData app) = Some r5 ->
  routeDataToRouteInfo_get app r5 = Some info5 ->
  renderPage_attempt app request r5 info5
    (mf_pageMap (app_manifest app) !! component r5) 500
    (logged app (error_text e) w1)
  = (w2, Throw e5) ->
  exists w3,
    App_render (S fuel) app request routeData w
    = (w3, Normal (bodiless 500 "Internal server error" [])).
Proof.
  intros Hm Hp Hi Ht Hu Hn H5 Hi5 Ht5.
  rewrite (render_failure_falls_back_once _ _ _ _ _ _ _ _ _ _ Hm Hp Hi Ht Hu Hn), H5.
  destruct (nullish_or_not e5) as [Hz|Hz].
  - destruct (App_renderPage_nullish_failure _ _ _ _ _ _ _ _ _ Hi5 Ht5 Hz) as [m ->].
    now eexists.
  - rewrite (App_renderPage_failure _ _ _ _ _ _ _ _ _ Hi5 Ht5); [now eexists| |]; tauto.
Qed.

End FallbackProperties.

(** ** The fixture site, request by request *)

(** C1 (the code departs from the claim when the failure is a thrown
    [undefined] or [null]): the page at [/rejects] fails by throwing
    [undefined] and a [/500] route exists, yet [render] makes no fallback
    attempt and returns no response: the [catch] block of [#renderPage] throws
    a [TypeError] while reading [err.stack], and [render] throws it on. *)
Theorem render_rejects_on_nullish_failure (fuel : nat) :
  (exists rd info w1,
      render_match (Fixture.app None) (Fixture.get "/rejects") None = Some (rd, 200)
      /\ route_type rd = page
      /\ routeDataToRouteInfo_get (Fixture.app None) rd = Some info
      /\ renderPage_attempt (Fixture.app None) (Fixture.get "/rejects") rd info
           (Fixture.compiled "Rejects.astro") 200
           (fst (Reflect_set_locals (Fixture.get "/rejects") (JSObject []) Fixture.fresh))
         = (w1, Throw (ThrownValue JSUndefined)))
  /\ (exists fiveHundredRouteData,
        matchRoute "/500" (app_manifestData (Fixture.app None))
        = Some fiveHundredRouteData)
  /\ exists w,
      App_render (S fuel) (Fixture.app None) (Fixture.get "/rejects") None Fixture.fresh
      = (w, Throw (TypeError "Cannot read properties of undefined (reading 'stack')"))
      /\ w_console w = [].
Proof.
  split; [|split].
  - do 3 eexists. repeat split; vm_compute; reflexivity.
  - eexists. vm_compute. reflexivity.
  - eexists. split; vm_compute; reflexivity.
Qed.

(** A page that throws an [Error] is answered by the [/500] page, rendered
    once with status 500; where the [/500] page throws too, by the bare 500. *)
Example render_failure_falls_back_once_example :
  (exists w, App_render 1 (Fixture.app None) (Fixture.get "/boom") None Fixture.fresh
             = (w, Normal (Fixture.html 500 "500.astro"))
             /\ map msg_text (w_console w) = ["Error: boom"])
  /\ (exists w, App_render 1 Fixture.app_failing_500 (Fixture.get "/boom") None Fixture.fresh
                = (w, Normal (bodiless 500 "Internal server error" []))
                /\ map msg_text (w_console w) = ["Error: boom"; "Error: boom"]).
Proof.
  split.
  - eexists.
    erewrite render_failure_falls_back_once;
      [| vm_compute; reflexivity | reflexivity | vm_compute; reflexivity
       | vm_compute; reflexivity | discriminate | discriminate].
    split; vm_compute; reflexivity.
  - edestruct (render_failure_of_fallback 0 Fixture.app_failing_500
                 (Fixture.get "/boom") None) with (w := Fixture.fresh) as [w3 Hr];
      [vm_compute; reflexivity | reflexivity | vm_compute; reflexivity
      | vm_compute; reflexivity | discriminate | discriminate
      | vm_compute; reflexivity | vm_compute; reflexivity | vm_compute; reflexivity |].
    exists w3. split; [exact Hr|].
    vm_compute in Hr. injection Hr as <-. reflexivity.
Qed.

(** An endpoint that answers with the sentinel is replaced by the [/404]
    page, through [render] itself. *)
Example render_sentinel_example :
  exists w,
    App_render 2 (Fixture.app None) (Fixture.get "/missing") None Fixture.fresh
    = (w, Normal (Fixture.html 404 "404.astro")).
Proof.
  eexists.
  erewrite App_render_endpoint; [| vm_compute; reflexivity | reflexivity].
  vm_compute. reflexivity.
Qed.

(** With [base: '/docs/'] the prefix is stripped before matching. *)
Example removeBase_example :
  let app :=
    App_new {| mf_adapterName := None; mf_routes := Fixture.routes; mf_site := None;
               mf_base := Some "/docs/"; mf_assets := ∅; mf_pageMap := ∅;
               mf_middleware := None; mf_componentMetadata := [] |} true in
  removeBase app "/docs/about" = "about"
  /\ lookup_path app (Fixture.get "/docs/about") = "/about"
  /\ removeBase app "/other" = "/other".
Proof. repeat split; reflexivity. Qed.

(** On the fixture: [locals = 5] is refused, [locals = {a:1}] is stored and
    read back. *)
Example locals_examples :
  forall context w,
    locals_set context (JSNumber 5) w = (w, Throw (AstroError LocalsNotAnObject))
    /\ exists w', locals_set context (JSObject [("a", JSNumber 1)]) w = (w', Normal tt)
                  /\ locals_get context w' = (w', Normal (JSObject [("a", JSNumber 1)])).
Proof.
  intros context w. split.
  - apply locals_set_rejects. discriminate.
  - now apply locals_set_object.
Qed.

(** C3 fails as stated: [/favicon.ico] is a public asset that matches no
    route, the site has a [/404] page that is not pre-rendered, and the
    not-found lookup still reports no match. *)
Lemma asset_request_skips_not_found_lookup :
  ~ (matchRoute (lookup_path (Fixture.app None) (Fixture.get "/favicon.ico"))
       (app_manifestData (Fixture.app None)) = None ->
     App_match (Fixture.app None) (Fixture.get "/favicon.ico") true
     = match matchRoute "/404" (app_manifestData (Fixture.app None)) with
       | Some notFoundRouteData =>
           if prerender notFoundRouteData then None else Some notFoundRouteData
       | None => None
       end).
Proof.
  intros Hc. specialize (Hc eq_refl). vm_compute in Hc. discriminate Hc.
Qed.

Lemma match_not_found_lookup_witness :
  App_match (Fixture.app None) (Fixture.get "/nowhere") true
  = Some (routeData (Fixture.page_route "/404" "404.astro" false))
  /\ App_match Fixture.app_static_404 (Fixture.get "/nowhere") true = None
  /\ App_render 1 Fixture.app_static_404 (Fixture.get "/nowhere") None Fixture.fresh
     = (Fixture.fresh, Normal (bodiless 404 "Not found" [])).
Proof.
  split.
  - destruct (match_not_found_lookup (Fixture.app None) (Fixture.get "/nowhere"))
      as [Htry _]; [vm_compute; reflexivity|].
    rewrite Htry; [vm_compute; reflexivity|].
    apply (bool_decide_eq_false_1 _). vm_compute. reflexivity.
  - destruct (match_not_found_lookup Fixture.app_static_404 (Fixture.get "/nowhere"))
      as [_ Hpre]; [vm_compute; reflexivity|].
    destruct (Hpre (routeData (Fixture.page_route "/404" "404.astro" true)))
      as [Hm Hr]; [vm_compute; reflexivity | reflexivity |].
    split; [exact Hm | exact (Hr 0%nat Fixture.fresh)].
Defined.

Lemma match_prerendered_route_witness :
  App_match (Fixture.app None) (Fixture.get "/about") true = None
  /\ matchRoute "/404" (app_manifestData (Fixture.app None))
     = Some (routeData (Fixture.page_route "/404" "404.astro" false))
  /\ App_render 1 (Fixture.app None) (Fixture.get "/about") None Fixture.fresh
     = (Fixture.fresh, Normal (bodiless 404 "Not found" [])).
Proof.
  destruct (match_prerendered_route (Fixture.app None) (Fixture.get "/about")
              (routeData (Fixture.page_route "/about" "About.astro" true)))
    as [Hm Hr]; [vm_compute; reflexivity | reflexivity |].
  split; [exact (Hm true)|].
  split; [vm_compute; reflexivity | exact (Hr 0%nat Fixture.fresh)].
Defined.

(** C4 fails as stated: [full.ts] returns a [Response] that has a body, a
    hook is configured, and the warning is emitted all the same. *)
Lemma response_with_body_is_warned_about :
  exists w1 context w2 r b w,
    createAPIContext
      (call_context_args (Fixture.environment "production") (Fixture.render_context "/full"))
      Fixture.fresh = (w1, Normal context)
    /\ renderEndpoint (Fixture.compiled "full.ts") context true w1
       = (w2, Normal (EVResponse r))
    /\ body r = Some b
    /\ call (Fixture.compiled "full.ts") (Fixture.environment "production")
         (Fixture.render_context "/full") consoleLogging (Fixture.hooked 0) Fixture.fresh
       = (w, Normal (response (attachToResponse r (ctx_cookies context))))
    /\ map msg_text (w_console w) = [middleware_warning].
Proof.
  do 6 eexists. repeat split; vm_compute; reflexivity.
Qed.

Lemma call_middleware_gate_witness :
  (exists w r,
      call (Fixture.compiled "empty.ts") (Fixture.environment "production")
        (Fixture.render_context "/empty") consoleLogging (Fixture.hooked 0) Fixture.fresh
      = (w, Normal (response r))
      /\ w_console w = []
      /\ clientLocalsSymbol (props_of w (Fixture.get "/empty"))
         = Some (JSObject [("name", JSString "bar")]))
  /\ (exists w text cookies,
        call (Fixture.compiled "hi.ts") (Fixture.environment "production")
          (Fixture.render_context "/hi") consoleLogging (Fixture.hooked 0) Fixture.fresh
        = (w, Normal (simple text None cookies))
        /\ map msg_text (w_console w) = [middleware_warning]
        /\ clientLocalsSymbol (props_of w (Fixture.get "/hi")) = None).
Proof.
  split.
  - edestruct (call_middleware_gate (Fixture.compiled "empty.ts")
                 (Fixture.environment "production") (Fixture.render_context "/empty")
                 consoleLogging 0 Fixture.fresh) as [Hnull _];
      [reflexivity | reflexivity |].
    unfold Fixture.hooked. rewrite (Hnull eq_refl).
    do 2 eexists. repeat split; vm_compute; reflexivity.
  - edestruct (call_middleware_gate (Fixture.compiled "hi.ts")
                 (Fixture.environment "production") (Fixture.render_context "/hi")
                 consoleLogging 0 Fixture.fresh) as [_ Hbody];
      [reflexivity | reflexivity |].
    destruct (Hbody eq_refl) as (w3 & Hw & _ & Hcall).
    vm_compute in Hw. injection Hw as <-.
    unfold Fixture.hooked. rewrite Hcall.
    do 3 eexists. repeat split; vm_compute; reflexivity.
Defined.

Lemma callEndpoint_simple_body_witness :
  exists w r,
    App_callEndpoint (App_render 0 (Fixture.app None)) (Fixture.app None)
      (Fixture.get "/hi") (routeData (Fixture.endpoint_route "/hi" "hi.ts"))
      (Fixture.compiled "hi.ts") 200 Fixture.fresh
    = (w, Normal r)
    /\ status r = 200
    /\ headers r = [("content-type", "text/plain;charset=utf-8"); ("content-length", "2")]
    /\ body r = Some [104; 105]%N
    /\ exists jar, astroCookies r = Some jar.
Proof.
  edestruct (callEndpoint_simple_body (App_render 0 (Fixture.app None)) (Fixture.app None)
               (Fixture.get "/hi") (routeData (Fixture.endpoint_route "/hi" "hi.ts"))
               (Fixture.compiled "hi.ts") 200 Fixture.fresh)
    as (r & Hr & Hs & _ & _ & Hb & Hc & Hhi);
    [reflexivity | reflexivity |].
  do 2 eexists. split; [exact Hr|]. split; [exact Hs|].
  split; [apply Hhi; reflexivity|]. split; [exact Hb|]. eexists; exact Hc.
Defined.

Lemma callEndpoint_not_found_sentinel_witness :
  (exists w,
      App_callEndpoint (App_render 1 (Fixture.app None)) (Fixture.app None)
        (Fixture.get "/missing") (routeData (Fixture.endpoint_route "/missing" "missing.ts"))
        (Fixture.compiled "missing.ts") 200 Fixture.fresh
      = (w, Normal (Fixture.html 404 "404.astro")))
  /\ (exists w r,
        App_callEndpoint (App_render 1 Fixture.app_without_404) Fixture.app_without_404
          (Fixture.get "/missing")
          (routeData (Fixture.endpoint_route "/missing" "missing.ts"))
          (Fixture.compiled "missing.ts") 200 Fixture.fresh
        = (w, Normal r)
        /\ Headers_get "X-Astro-Response" (headers r) = Some "Not-Found").
Proof.
  split.
  - edestruct (callEndpoint_not_found_sentinel 1 (Fixture.app None)
                 (Fixture.get "/missing")
                 (routeData (Fixture.endpoint_route "/missing" "missing.ts"))
                 (Fixture.compiled "missing.ts") 200 Fixture.fresh)
      as (w3 & request404 & Hnew & _ & Hsome & _);
      [reflexivity | reflexivity | reflexivity |].
    vm_compute in Hnew. injection Hnew as <- <-.
    rewrite (Hsome (routeData (Fixture.page_route "/404" "404.astro" false)) eq_refl).
    eexists. vm_compute. reflexivity.
  - edestruct (callEndpoint_not_found_sentinel 1 Fixture.app_without_404
                 (Fixture.get "/missing")
                 (routeData (Fixture.endpoint_route "/missing" "missing.ts"))
                 (Fixture.compiled "missing.ts") 200 Fixture.fresh)
      as (w3 & request404 & Hnew & _ & _ & Hnone);
      [reflexivity | reflexivity | reflexivity |].
    vm_compute in Hnew. injection Hnew as <- <-.
    rewrite (Hnone eq_refl).
    do 2 eexists. split; reflexivity.
Defined.

Lemma clientAddress_accessor_witness :
  (exists context,
      snd (createAPIContext (Fixture.context_args "/" (Some "test-adapter")) Fixture.fresh)
      = Normal context
      /\ clientAddress context Fixture.with_client_address
         = (Fixture.with_client_address, Normal (JSString "203.0.113.7"))
      /\ clientAddress context Fixture.fresh
         = (Fixture.fresh, Throw (AstroError (ClientAddressNotAvailable "test-adapter"))))
  /\ (exists context,
        snd (createAPIContext (Fixture.context_args "/" None) Fixture.fresh)
        = Normal context
        /\ clientAddress context Fixture.fresh
           = (Fixture.fresh, Throw (AstroError StaticClientAddressNotAvailable))).
Proof.
  split.
  - eexists. split; [reflexivity|]. split.
    + destruct (clientAddress_accessor (Fixture.context_args "/" (Some "test-adapter"))
                  Fixture.fresh _ _ Fixture.with_client_address eq_refl) as (Hv & _ & _).
      apply Hv. reflexivity.
    + destruct (clientAddress_accessor (Fixture.context_args "/" (Some "test-adapter"))
                  Fixture.fresh _ _ Fixture.fresh eq_refl) as (_ & Ha & _).
      apply Ha; [reflexivity | reflexivity | discriminate].
  - eexists. split; [reflexivity|].
    destruct (clientAddress_accessor (Fixture.context_args "/" None)
                Fixture.fresh _ _ Fixture.fresh eq_refl) as (_ & _ & Hs).
    apply Hs; reflexivity.
Defined.

Lemma throwIfRedirectNotAllowed_witness :
  throwIfRedirectNotAllowed (bodiless 302 "" [("location", "/")]) "static" Fixture.fresh
  = (Fixture.fresh, Throw (AstroError StaticRedirectNotAvailable))
  /\ throwIfRedirectNotAllowed (bodiless 302 "" [("location", "/")]) "server" Fixture.fresh
     = (Fixture.fresh, Normal tt)
  /\ throwIfRedirectNotAllowed (bodiless 404 "Not found" []) "static" Fixture.fresh
     = (Fixture.fresh, Normal tt).
Proof.
  split; [|split].
  - apply (proj1 (throwIfRedirectNotAllowed_iff _ _ _)).
    split; [simpl; lia | discriminate].
  - apply (proj2 (throwIfRedirectNotAllowed_iff _ _ _)).
    intros [_ Hn]. now apply Hn.
  - apply (proj2 (throwIfRedirectNotAllowed_iff _ _ _)).
    simpl. intros [Hr _]. lia.
Defined.

Lemma call_checks_locals_in_development_witness :
  snd (call (Fixture.compiled "empty.ts") (Fixture.environment "development")
         (Fixture.render_context "/empty") consoleLogging (Fixture.hooked 1) Fixture.fresh)
  = Throw (AstroError (LocalsNotSerializable "/empty"))
  /\ (exists r,
        snd (call (Fixture.compiled "empty.ts") (Fixture.environment "production")
               (Fixture.render_context "/empty") consoleLogging (Fixture.hooked 1)
               Fixture.fresh)
        = Normal (response r)).
Proof.
  split.
  - edestruct (call_checks_locals_in_development (Fixture.compiled "empty.ts")
                 (Fixture.environment "development") (Fixture.render_context "/empty")
                 consoleLogging 1 Fixture.fresh) as [Hcall Hnext];
      [reflexivity | reflexivity | reflexivity |].
    unfold Fixture.hooked. rewrite Hcall.
    destruct (Hnext Fixture.with_function_in_locals _ eq_refl) as (Hthrow & _ & _).
    specialize (Hthrow eq_refl eq_refl).
    erewrite bind_Throw; [reflexivity|].
    etransitivity; [|exact Hthrow]. vm_compute. reflexivity.
  - edestruct (call_checks_locals_in_development (Fixture.compiled "empty.ts")
                 (Fixture.environment "production") (Fixture.render_context "/empty")
                 consoleLogging 1 Fixture.fresh) as [Hcall Hnext];
      [reflexivity | reflexivity | reflexivity |].
    unfold Fixture.hooked. rewrite Hcall.
    eexists. vm_compute. reflexivity.
Defined.

(** * More of the two modules *)

(** ** Paths and the base *)

Lemma prefix_append (p s : string) : String.prefix p (p +:+ s) = true.
Proof.
  induction p as [|a p IH]; simpl.
  - now destruct s.
  - destruct (ascii_dec a a); [exact IH | congruence].
Qed.

Lemma prefix_refl (s : string) : String.prefix s s = true.
Proof.
  induction s as [|a s IH]; simpl; [reflexivity|].
  destruct (ascii_dec a a); [exact IH | congruence].
Qed.

Lemma substring_whole (s : string) : String.substring 0 (String.length s) s = s.
Proof. induction s as [|a s IH]; simpl; congruence. Qed.

Lemma substring_beyond (s : string) (n m : nat) :
  (String.length s <= n)%nat -> String.substring n m s = "".
Proof.
  revert n. induction s as [|a s IH]; intros n Hn.
  - now destruct n, m.
  - destruct n as [|n]; simpl in *; [lia | apply IH; lia].
Qed.

Lemma substring_append_skip (p s : string) :
  String.substring (String.length p) (String.length s) (p +:+ s) = s.
Proof. induction p as [|a p IH]; simpl; [apply substring_whole | exact IH]. Qed.

Lemma length_append (p s : string) :
  String.length (p +:+ s) = (String.length p + String.length s)%nat.
Proof. induction p as [|a p IH]; simpl; [reflexivity | now rewrite IH]. Qed.

Lemma append_String_assoc (p : string) (c : ascii) (s : string) :
  p +:+ String c s = (p +:+ String c "") +:+ s.
Proof.
  induction p as [|a p IH]; [reflexivity|].
  change (String a (p +:+ String c s) = String a ((p +:+ String c "") +:+ s)).
  now rewrite IH.
Qed.

Lemma slice_append (p s : string) : slice (p +:+ s) (String.length p) = s.
Proof.
  unfold slice. rewrite length_append.
  replace (String.length p + String.length s - String.length p)%nat
    with (String.length s) by lia.
  apply substring_append_skip.
Qed.

Section BaseProperties.
Context `{Collaborators}.

(** X1: when the base ends with the one character that
    [#baseWithoutTrailingSlash] lacks, [removeBase] returns exactly what
    follows the base in a path that starts with it. *)
Theorem removeBase_strips_base (app : App) (rest : string) :
  (String.length (app_baseWithoutTrailingSlash app) + 1 = String.length (app_base app))%nat ->
  removeBase app (app_base app +:+ rest) = rest.
Proof.
  intros Hlen. unfold removeBase, startsWith.
  rewrite prefix_append, Hlen. apply slice_append.
Qed.

(** X2: when the base has no trailing slash to remove, [removeBase] drops the
    base and the character after it, whichever it is; the base alone becomes
    the empty path. *)
Theorem removeBase_base_without_slash (app : App) (c : ascii) (rest : string) :
  app_baseWithoutTrailingSlash app = app_base app ->
  removeBase app (app_base app +:+ String c rest) = rest
  /\ removeBase app (app_base app) = "".
Proof.
  intros Heq. unfold removeBase, startsWith. rewrite Heq. split.
  - rewrite prefix_append, append_String_assoc.
    replace (String.length (app_base app) + 1)%nat
      with (String.length (app_base app +:+ String c "")).
    + apply slice_append.
    + rewrite length_append. reflexivity.
  - rewrite prefix_refl. unfold slice. apply substring_beyond. lia.
Qed.

End BaseProperties.

Lemma removeBase_strips_base_witness :
  removeBase Based.docs_slash "/docs/about" = "about"
  /\ lookup_path Based.docs_slash (Fixture.get "/docs/about") = "/about".
Proof.
  assert (removeBase Based.docs_slash ("/docs/" +:+ "about") = "about") as Hr
    by (apply (removeBase_strips_base Based.docs_slash "about"); reflexivity).
  split; [exact Hr|]. unfold lookup_path. simpl pathname.
  change "/docs/about" with ("/docs/" +:+ "about"). rewrite Hr. reflexivity.
Defined.

Lemma removeBase_base_without_slash_witness :
  removeBase Based.docs "/docsify" = "fy"
  /\ removeBase Based.docs "/docs/about" = "about"
  /\ removeBase Based.docs "/docs" = "".
Proof.
  split; [|split].
  - apply (proj1 (removeBase_base_without_slash Based.docs "i" "fy" eq_refl)).
  - apply (proj1 (removeBase_base_without_slash Based.docs "/" "about" eq_refl)).
  - apply (proj2 (removeBase_base_without_slash Based.docs "/" "" eq_refl)).
Defined.

(** ** The matcher and the constructor *)

Section MatchProperties.
Context `{Collaborators}.

(** X3: whatever [match] returns is a route that is not pre-rendered, for a
    path that is not a public asset, and it is either what [matchRoute] finds
    for the path or, on a not-found lookup for an unmatched path, what it
    finds for [/404]. *)
Theorem App_match_sound (app : App) (request : Request) (matchNotFound : bool)
    (rd : RouteData) :
  App_match app request matchNotFound = Some rd ->
  prerender rd = false
  /\ (pathname (url request) ∉ mf_assets (app_manifest app))
  /\ (matchRoute (lookup_path app request) (app_manifestData app) = Some rd
      \/ (matchNotFound = true
          /\ matchRoute (lookup_path app request) (app_manifestData app) = None
          /\ matchRoute "/404" (app_manifestData app) = Some rd)).
Proof.
  unfold App_match. intros Hm.
  destruct (bool_decide (pathname (url request) ∈ mf_assets (app_manifest app)))
    eqn:Ha; [discriminate|].
  apply bool_decide_eq_false in Ha.
  destruct (matchRoute (lookup_path app request) (app_manifestData app)) as [rd'|].
  - destruct (prerender rd') eqn:Hp; [discriminate|].
    injection Hm as <-. split; [exact Hp|]. split; [exact Ha|]. now left.
  - destruct matchNotFound; [|discriminate].
    destruct (matchRoute "/404" (app_manifestData app)) as [nf|]; [|discriminate].
    destruct (prerender nf) eqn:Hp; [discriminate|].
    injection Hm as <-. split; [exact Hp|]. split; [exact Ha|]. now right.
Qed.

(** X4: asking for the not-found lookup never loses a match: a route
    returned by [match(request)] is returned by
    [match(request, { matchNotFound: true })] as well. *)
Theorem App_match_matchNotFound_keeps (app : App) (request : Request) (rd : RouteData) :
  App_match app request false = Some rd ->
  App_match app request true = Some rd.
Proof.
  unfold App_match.
  destruct (bool_decide _); [discriminate|].
  destruct (matchRoute (lookup_path app request) (app_manifestData app)) as [rd'|];
    [auto | discriminate].
Qed.


End MatchProperties.

Lemma App_match_sound_witness :
  prerender (routeData (Fixture.page_route "/404" "404.astro" false)) = false
  /\ matchRoute "/404" (app_manifestData (Fixture.app None))
     = Some (routeData (Fixture.page_route "/404" "404.astro" false)).
Proof.
  destruct (App_match_sound (Fixture.app None) (Fixture.get "/nowhere") true
              (routeData (Fixture.page_route "/404" "404.astro" false)))
    as (Hp & _ & [Hm | (_ & _ & Hm)]); [vm_compute; reflexivity | | ].
  - vm_compute in Hm. discriminate Hm.
  - split; [exact Hp | exact Hm].
Defined.

Lemma App_match_matchNotFound_keeps_witness :
  App_match (Fixture.app None) (Fixture.get "/") true
  = Some (routeData (Fixture.page_route "/" "Index.astro" false)).
Proof.
  apply App_match_matchNotFound_keeps. vm_compute. reflexivity.
Defined.


(** ** What [render] does around the renderers *)

Lemma Reflect_set_locals_overwrites (r : Request) (v v' : JSValue) (w : World) :
  Reflect_set_locals r v' (with_locals r v w)
  = (with_locals r v' w, Normal tt).
Proof.
  unfold with_locals, Reflect_set_locals. simpl. rewrite props_of_set_props. simpl.
  unfold set_props. simpl. now rewrite insert_insert_eq.
Qed.

Section RenderProperties.
Context `{Collaborators}.

(** X6: for a request that matches, [render] starts by replacing whatever
    locals are attached to the request with [{}]: locals attached beforehand
    have no effect on what [render] does or returns. *)
Theorem App_render_discards_locals (fuel : nat) (app : App) (request : Request)
    (routeData : option RouteData) (rd : RouteData) (st : Z) (v : JSValue) (w : World) :
  render_match app request routeData = Some (rd, st) ->
  App_render (S fuel) app request routeData (with_locals request v w)
  = App_render (S fuel) app request routeData w.
Proof.
  intros Hm. simpl. rewrite Hm. unfold render_matched.
  rewrite (bind_Normal _ _ _ _ _ (Reflect_set_locals_overwrites request v (JSObject []) w)).
  erewrite (bind_Normal _ _ w) by reflexivity. reflexivity.
Qed.

(** X7: a route whose type is neither ['page'] nor ['endpoint'] makes
    [render] throw [Unsupported route type [..]] naming the type, after the
    locals of the request have been reset and before any renderer runs. *)
Theorem App_render_unsupported_route_type (fuel : nat) (app : App) (request : Request)
    (routeData : option RouteData) (rd : RouteData) (st : Z) (name : string) (w : World) :
  render_match app request routeData = Some (rd, st) ->
  route_type rd = other_type name ->
  App_render (S fuel) app request routeData w
  = (with_locals request (JSObject []) w,
     Throw (Error ("Unsupported route type [" +:+ name +:+ "]."))).
Proof.
  intros Hm Ht. simpl. rewrite Hm. unfold render_matched.
  erewrite bind_Normal by reflexivity. now rewrite Ht.
Qed.

(** X8: unlike a page, an endpoint has no recovery: when the handler throws,
    [render] throws the same value, in the world the handler left behind:
    no [/500] attempt, no response, nothing logged. *)
Theorem App_render_endpoint_failure_propagates (fuel : nat) (app : App)
    (request : Request) (routeData : option RouteData) (rd : RouteData) (st : Z)
    (w w1 w2 w3 : World) (ctx : RenderContext) (context : APIContext) (e : Thrown) :
  render_match app request routeData = Some (rd, st) ->
  route_type rd = endpoint ->
  createRenderContext
    (callEndpoint_context_args app request rd
       (mf_pageMap (app_manifest app) !! component rd)
       (if bool_decide (route rd = "/404") then 404 else st))
    (with_locals request (JSObject []) w)
  = (w1, Normal ctx) ->
  createAPIContext (call_context_args (app_env app) ctx) w1 = (w2, Normal context) ->
  renderEndpoint (mf_pageMap (app_manifest app) !! component rd) context
    (env_ssr (app_env app)) w2
  = (w3, Throw e) ->
  App_render (S fuel) app request routeData w = (w3, Throw e).
Proof.
  intros Hm Ht Hc Ha He.
  rewrite (App_render_endpoint _ _ _ _ _ _ _ Hm Ht).
  unfold App_callEndpoint. fold (with_locals request (JSObject []) w).
  rewrite (bind_Normal _ _ _ _ _ Hc).
  erewrite bind_Throw; [reflexivity|].
  unfold call. rewrite (bind_Normal _ _ _ _ _ Ha).
  now rewrite (bind_Throw _ _ _ _ _ He).
Qed.

End RenderProperties.

Lemma App_render_discards_locals_witness :
  App_render 1 (Fixture.app None) (Fixture.get "/") None Odd.with_adapter_locals
  = App_render 1 (Fixture.app None) (Fixture.get "/") None Fixture.fresh.
Proof.
  apply (App_render_discards_locals 0 (Fixture.app None) (Fixture.get "/") None
           (routeData (Fixture.page_route "/" "Index.astro" false)) 200).
  vm_compute. reflexivity.
Defined.

Lemma App_render_unsupported_route_type_witness :
  snd (App_render 1 Odd.app (Fixture.get "/old") None Fixture.fresh)
  = Throw (Error "Unsupported route type [redirect].").
Proof.
  rewrite (App_render_unsupported_route_type 0 Odd.app (Fixture.get "/old") None
             (routeData Odd.legacy_route) 200 "redirect");
    [reflexivity | vm_compute; reflexivity | reflexivity].
Defined.

Lemma App_render_endpoint_failure_propagates_witness :
  exists w,
    App_render 1 Odd.app (Fixture.get "/broken") None Fixture.fresh
    = (w, Throw (Error "No handler found"))
    /\ w_console w = [].
Proof.
  eexists. split.
  - eapply (App_render_endpoint_failure_propagates 0 Odd.app (Fixture.get "/broken") None
              (routeData (Fixture.endpoint_route "/broken" "broken.ts")) 200 Fixture.fresh);
      [vm_compute; reflexivity | reflexivity | reflexivity | reflexivity
      | vm_compute; reflexivity].
  - reflexivity.
Defined.

Section FallbackGate.
Context `{Collaborators}.

(** X9: the [/500] page is tried for every page response whose status is
    500, thrown or not (a hook that answers 500 itself is enough); a response
    with any other status is returned as it is.  If the [/500] render returns
    a response, that one replaces the first; if there is no [/500] route, or
    rendering it throws, the first response is returned. *)
Theorem App_render_page_status_gate (fuel : nat) (app : App) (request : Request)
    (routeData : option RouteData) (rd : RouteData) (st : Z) (w w1 : World)
    (r : Response) :
  render_match app request routeData = Some (rd, st) ->
  route_type rd = page ->
  App_renderPage app request rd (mf_pageMap (app_manifest app) !! component rd)
    (if bool_decide (route rd = "/404") then 404 else st)
    (with_locals request (JSObject []) w)
  = (w1, Normal r) ->
  (status r <> 500 -> App_render (S fuel) app request routeData w = (w1, Normal r))
  /\ (status r = 500 -> matchRoute "/500" (app_manifestData app) = None ->
      App_render (S fuel) app request routeData w = (w1, Normal r))
  /\ (forall fiveHundredRouteData w2 fiveHundredResponse,
        status r = 500 ->
        matchRoute "/500" (app_manifestData app) = Some fiveHundredRouteData ->
        App_renderPage app request fiveHundredRouteData
          (mf_pageMap (app_manifest app) !! component fiveHundredRouteData) 500 w1
        = (w2, Normal fiveHundredResponse) ->
        App_render (S fuel) app request routeData w = (w2, Normal fiveHundredResponse))
  /\ (forall fiveHundredRouteData w2 e,
        status r = 500 ->
        matchRoute "/500" (app_manifestData app) = Some fiveHundredRouteData ->
        App_renderPage app request fiveHundredRouteData
          (mf_pageMap (app_manifest app) !! component fiveHundredRouteData) 500 w1
        = (w2, Throw e) ->
        App_render (S fuel) app request routeData w = (w2, Normal r)).
Proof.
  intros Hm Hp Hr.
  assert (App_render (S fuel) app request routeData w
          = render_matched (App_render fuel app) app request rd st w) as ->
    by (simpl; now rewrite Hm).
  rewrite (render_matched_page _ _ _ _ _ _ _ _ Hp Hr).
  split; [|split; [|split]].
  - intros Hs. now rewrite bool_decide_eq_false_2.
  - intros Hs Hn. now rewrite bool_decide_eq_true_2, Hn.
  - intros r5 w2 r' Hs H5 Hr5. now rewrite bool_decide_eq_true_2, H5, Hr5.
  - intros r5 w2 e Hs H5 Hr5. now rewrite bool_decide_eq_true_2, H5, Hr5.
Qed.


End FallbackGate.

Lemma App_render_page_status_gate_witness :
  exists w,
    @App_render DevSite.collaborators 1 DevSite.app (Fixture.get "/broken-500") None
      Fixture.fresh
    = (w, Normal (bodiless 500 "" []))
    /\ w_console w = [].
Proof.
  destruct (@App_render_page_status_gate DevSite.collaborators 0 DevSite.app
              (Fixture.get "/broken-500") None
              (routeData (Fixture.page_route "/broken-500" "Index.astro" false)) 200
              Fixture.fresh
              (fst (@App_renderPage DevSite.collaborators DevSite.app
                      (Fixture.get "/broken-500")
                      (routeData (Fixture.page_route "/broken-500" "Index.astro" false))
                      (Fixture.compiled "Index.astro") 200
                      (with_locals (Fixture.get "/broken-500") (JSObject [])
                         Fixture.fresh)))
              (bodiless 500 "" []))
    as (_ & _ & Hgate & _);
    [vm_compute; reflexivity | reflexivity | vm_compute; reflexivity |].
  eexists. split.
  - eapply (Hgate (routeData (Fixture.page_route "/500" "500.astro" false)));
      [reflexivity | vm_compute; reflexivity | vm_compute; reflexivity].
  - reflexivity.
Defined.


(** ** The request context, once more *)

Lemma props_of_with_locals_same (r r' : Request) (v : JSValue) (w : World) :
  request_id r' = request_id r ->
  props_of (with_locals r v w) r'
  = {| clientAddressSymbol := clientAddressSymbol (props_of w r);
       clientLocalsSymbol := Some v;
       responseSentSymbol := responseSentSymbol (props_of w r) |}.
Proof.
  intros Hid. unfold with_locals, Reflect_set_locals, props_of, set_props. simpl.
  rewrite Hid. now rewrite lookup_insert_eq.
Qed.

Lemma props_of_with_locals_other (r r' : Request) (v : JSValue) (w : World) :
  request_id r' <> request_id r ->
  props_of (with_locals r v w) r' = props_of w r'.
Proof.
  intros Hid. unfold with_locals, Reflect_set_locals, props_of, set_props. simpl.
  rewrite lookup_insert_ne by congruence. reflexivity.
Qed.

Lemma props_of_same_id (r r' : Request) (w : World) :
  request_id r' = request_id r -> props_of w r' = props_of w r.
Proof. intros Hid. unfold props_of. now rewrite Hid. Qed.

Lemma locals_set_accepted (context : APIContext) (v : JSValue) (w w' : World) :
  locals_set context v w = (w', Normal tt) ->
  w' = with_locals (ctx_request context) v w.
Proof.
  unfold locals_set. destruct (decide _); [discriminate|].
  unfold with_locals. now intros [= <-].
Qed.

Section ContextFrame.
Context `{Collaborators}.

Lemma createAPIContext_keeps_requests (a : APIContextArgs) (w w' : World)
    (context : APIContext) :
  createAPIContext a w = (w', Normal context) ->
  w_requests w' = w_requests w
  /\ w_console w' = w_console w
  /\ w_next_jar w' = S (w_next_jar w)
  /\ jar_id (ctx_cookies context) = w_next_jar w.
Proof.
  unfold createAPIContext, bind, AstroCookies_new, ret, throw.
  destruct (arg_site a) as [[|c s]|]; simpl.
  - intros [= <- <-]; now simpl.
  - destruct (URL_parse (String c s)); simpl; [|discriminate].
    intros [= <- <-]; now simpl.
  - intros [= <- <-]; now simpl.
Qed.

(** X11: locals belong to the request: an assignment through one context
    changes neither the locals seen through a context of another request nor
    the client address seen through any context. *)
Theorem locals_set_frame (context other : APIContext) (v : JSValue) (w w' : World) :
  locals_set context v w = (w', Normal tt) ->
  (request_id (ctx_request other) <> request_id (ctx_request context) ->
   snd (locals_get other w') = snd (locals_get other w))
  /\ (forall c : APIContext, snd (clientAddress c w') = snd (clientAddress c w)).
Proof.
  intros Hs. apply locals_set_accepted in Hs as ->. split.
  - intros Hne. unfold locals_get, Reflect_get_locals. simpl.
    now rewrite props_of_with_locals_other.
  - intros c. unfold clientAddress.
    destruct (decide (request_id (ctx_request c) = request_id (ctx_request context)))
      as [Hid|Hid].
    + rewrite (props_of_with_locals_same _ _ _ _ Hid). simpl.
      rewrite (props_of_same_id _ _ w Hid).
      now destruct (clientAddressSymbol _), (ctx_adapterName c) as [[|]|].
    + rewrite (props_of_with_locals_other _ _ _ _ Hid).
      now destruct (clientAddressSymbol _), (ctx_adapterName c) as [[|]|].
Qed.

(** X12: locals outlive the context: what is assigned through one context
    is read through a context that [createAPIContext] makes later for the
    same request (as for the [/500] render after a failed one). *)
Theorem locals_survive_context_creation (a1 a2 : APIContextArgs) (w0 w1 w2 w3 : World)
    (c1 c2 : APIContext) (v : JSValue) :
  createAPIContext a1 w0 = (w1, Normal c1) ->
  locals_set c1 v w1 = (w2, Normal tt) ->
  arg_request a2 = arg_request a1 ->
  createAPIContext a2 w2 = (w3, Normal c2) ->
  locals_get c2 w3 = (w3, Normal v).
Proof.
  intros H1 Hs Hr H2.
  apply createAPIContext_captures in H1 as (Hr1 & _).
  pose proof (createAPIContext_keeps_requests _ _ _ _ H2) as (Hreq & _).
  apply createAPIContext_captures in H2 as (Hr2 & _).
  apply locals_set_accepted in Hs as ->.
  unfold locals_get, Reflect_get_locals. f_equal. f_equal.
  unfold props_of at 1. rewrite Hreq.
  change (default no_props
            (w_requests (with_locals (ctx_request c1) v w1) !! request_id (ctx_request c2)))
    with (props_of (with_locals (ctx_request c1) v w1) (ctx_request c2)).
  rewrite props_of_with_locals_same by congruence. reflexivity.
Qed.

(** X13: cookies belong to the context: two contexts made one after the
    other, even for the same request, never share a cookie jar. *)
Theorem createAPIContext_fresh_cookies (a1 a2 : APIContextArgs) (w0 w1 w2 : World)
    (c1 c2 : APIContext) :
  createAPIContext a1 w0 = (w1, Normal c1) ->
  createAPIContext a2 w1 = (w2, Normal c2) ->
  ctx_cookies c1 <> ctx_cookies c2.
Proof.
  intros H1 H2.
  apply createAPIContext_keeps_requests in H1 as (_ & _ & Hn1 & Hj1).
  apply createAPIContext_keeps_requests in H2 as (_ & _ & _ & Hj2).
  intros Heq. rewrite Heq in Hj1. lia.
Qed.

(** X14: for a handler that returns a simple body, [call] returns that body
    and encoding with the context's cookies, never runs the middleware runner,
    and logs exactly: the middleware warning if a hook is configured, then,
    for a module that is not pre-rendered under SSR, the headers warning if
    the object has [headers] and the encoding warning if it has an
    [encoding]. *)
Theorem call_simple_body_diagnostics (m : ComponentInstance) (env : Environment)
    (ctx : RenderContext) (logging : LogOptions) (middleware : option Middleware)
    (w0 w1 w2 : World) (context : APIContext) (o : EndpointOutput) :
  createAPIContext (call_context_args env ctx) w0 = (w1, Normal context) ->
  renderEndpoint (Some m) context (env_ssr env) w1 = (w2, Normal (EVOutput o)) ->
  exists w',
    call (Some m) env ctx logging middleware w0
    = (w', Normal (simple (out_body o) (out_encoding o) (ctx_cookies context)))
    /\ w_console w'
       = (w_console w2 ++ simple_body_warnings env logging middleware m o)%list
    /\ w_requests w' = w_requests w2.
Proof.
  intros Hc Hp. rewrite (call_unfold _ _ _ _ _ _ _ _ _ _ Hc Hp).
  unfold simple_body_warnings, hook_configured, call_result, bind, warn, log, when, ret.
  destruct middleware as [[[hook|]]|]; simpl;
    destruct (env_ssr env); simpl;
    destruct (mod_prerender m); simpl;
    destruct (out_hasOwn_headers o); simpl;
    destruct (truthy_string (out_encoding o)); simpl;
    eexists; (split; [reflexivity|]); (split; [|reflexivity]);
    rewrite <- ?app_assoc, ?app_nil_r; reflexivity.
Qed.

End ContextFrame.

Lemma locals_set_frame_witness :
  snd (locals_get
         {| ctx_cookies := {| jar_id := 7; jar_request := Fixture.get "/" |};
            ctx_request := {| request_id := 5; url := url (Fixture.get "/other") |};
            ctx_params := []; ctx_site := None; ctx_generator := "";
            ctx_props := []; ctx_url := url (Fixture.get "/other");
            ctx_adapterName := None |}
         (with_locals (Fixture.get "/") (JSObject [("a", JSNumber 1)])
            Fixture.with_client_address))
  = Normal JSUndefined.
Proof.
  pose (other :=
          {| ctx_cookies := {| jar_id := 7; jar_request := Fixture.get "/" |};
             ctx_request := {| request_id := 5; url := url (Fixture.get "/other") |};
             ctx_params := []; ctx_site := None; ctx_generator := "";
             ctx_props := []; ctx_url := url (Fixture.get "/other");
             ctx_adapterName := None |}).
  pose (context :=
          {| ctx_cookies := {| jar_id := 0; jar_request := Fixture.get "/" |};
             ctx_request := Fixture.get "/";
             ctx_params := []; ctx_site := None; ctx_generator := "";
             ctx_props := []; ctx_url := url (Fixture.get "/");
             ctx_adapterName := None |}).
  destruct (locals_set_frame context other (JSObject [("a", JSNumber 1)])
              Fixture.with_client_address
              (with_locals (Fixture.get "/") (JSObject [("a", JSNumber 1)])
                 Fixture.with_client_address) eq_refl) as [Hother _].
  fold other. rewrite Hother; [reflexivity | discriminate].
Defined.

Lemma locals_survive_context_creation_witness :
  exists w1 c1 w2 w3 c2,
    createAPIContext (Fixture.context_args "/" None) Fixture.fresh = (w1, Normal c1)
    /\ locals_set c1 (JSObject [("a", JSNumber 1)]) w1 = (w2, Normal tt)
    /\ createAPIContext (Fixture.context_args "/" (Some "node")) w2 = (w3, Normal c2)
    /\ locals_get c2 w3 = (w3, Normal (JSObject [("a", JSNumber 1)]))
    /\ ctx_cookies c1 <> ctx_cookies c2.
Proof.
  do 5 eexists.
  split; [reflexivity|]. split; [reflexivity|]. split; [reflexivity|].
  split.
  - eapply (locals_survive_context_creation (Fixture.context_args "/" None)
              (Fixture.context_args "/" (Some "node")) Fixture.fresh);
      reflexivity.
  - discriminate.
Defined.

Lemma createAPIContext_fresh_cookies_witness :
  exists w1 c1 w2 c2,
    createAPIContext (Fixture.context_args "/" None) Fixture.fresh = (w1, Normal c1)
    /\ createAPIContext (Fixture.context_args "/" None) w1 = (w2, Normal c2)
    /\ ctx_cookies c1 <> ctx_cookies c2.
Proof.
  do 4 eexists. split; [reflexivity|]. split; [reflexivity|].
  eapply (createAPIContext_fresh_cookies (Fixture.context_args "/" None)
            (Fixture.context_args "/" None) Fixture.fresh); reflexivity.
Defined.

Lemma call_simple_body_diagnostics_witness :
  exists w cookies,
    @call DevSite.collaborators (Fixture.compiled "legacy.ts")
      (Fixture.environment "production") (Fixture.render_context "/legacy")
      consoleLogging (Fixture.hooked 0) Fixture.fresh
    = (w, Normal (simple (text_of_ascii "old") (Some "binary") cookies))
    /\ map msg_text (w_console w)
       = [middleware_warning; headers_warning; encoding_warning].
Proof.
  destruct (@call_simple_body_diagnostics DevSite.collaborators
              {| mod_name := "legacy.ts"; mod_prerender := false |}
              (Fixture.environment "production") (Fixture.render_context "/legacy")
              consoleLogging (Fixture.hooked 0) Fixture.fresh
              (fst (@createAPIContext DevSite.collaborators
                      (call_context_args (Fixture.environment "production")
                         (Fixture.render_context "/legacy")) Fixture.fresh))
              (fst (@createAPIContext DevSite.collaborators
                      (call_context_args (Fixture.environment "production")
                         (Fixture.render_context "/legacy")) Fixture.fresh))
              {| ctx_cookies := {| jar_id := 0; jar_request := Fixture.get "/legacy" |};
                 ctx_request := Fixture.get "/legacy";
                 ctx_params := []; ctx_site := None; ctx_generator := "Astro v2.5.0";
                 ctx_props := []; ctx_url := url (Fixture.get "/legacy");
                 ctx_adapterName := Some "test-adapter" |}
              {| out_body := text_of_ascii "old"; out_encoding := Some "binary";
                 out_hasOwn_headers := true |})
    as (w' & Hcall & Hlog & _); [reflexivity | reflexivity |].
  exists w'. eexists. split; [exact Hcall|].
  rewrite Hlog. reflexivity.
Defined.

(** ** [context.redirect] *)





Lemma throwIfRedirectNotAllowed_iff_helper (r : Response) (output : string) (w : World) :
  300 <= status r <= 399 -> output <> "server" ->
  throwIfRedirectNotAllowed r output w
  = (w, Throw (AstroError StaticRedirectNotAvailable)).
Proof.
  intros Hr Ho. unfold throwIfRedirectNotAllowed.
  rewrite bool_decide_eq_false_2 by exact Ho.
  replace (isRedirect (status r)) with true; [reflexivity|].
  symmetry. now apply isRedirect_range.
Qed.





(** ** The hooks of [middleware.js] *)


Lemma locals_get_with_locals (context : APIContext) (v : JSValue) (w : World) :
  locals_get context (with_locals (ctx_request context) v w)
  = (with_locals (ctx_request context) v w, Normal v).
Proof.
  unfold locals_get, Reflect_get_locals.
  now rewrite props_of_with_locals_same.
Qed.

Lemma locals_assign_object (context : APIContext) (key : string) (v : JSValue)
    (fields : list (string * JSValue)) (w : World) :
  locals_get context w = (w, Normal (JSObject fields)) ->
  locals_assign context key v w
  = (with_locals (ctx_request context) (JSObject (set_field key v fields)) w, Normal tt).
Proof.
  intros Hl. unfold locals_assign. now rewrite (bind_Normal _ _ _ _ _ Hl).
Qed.

Lemma locals_assign_nullish (context : APIContext) (key : string) (v l : JSValue)
    (w : World) :
  locals_get context w = (w, Normal l) ->
  l = JSUndefined \/ l = JSNull ->
  exists m, locals_assign context key v w = (w, Throw (TypeError m)).
Proof.
  intros Hl Hn. unfold locals_assign. rewrite (bind_Normal _ _ _ _ _ Hl).
  destruct Hn as [-> | ->]; now eexists.
Qed.

Section HandlerProperties.
Context {R : Type} `{FromResponse R}.

Lemma first_continues (context : APIContext) (next : M (option R))
    (fields : list (string * JSValue)) (w : World) :
  locals_get context w = (w, Normal (JSObject fields)) ->
  includes (request_url context) "/lorem" = true
  \/ (includes (request_url context) "/rewrite" = false
      /\ includes (request_url context) "/broken-500" = false) ->
  MiddlewareDev.first context next w
  = next (with_locals (ctx_request context)
            (JSObject (set_field "name"
                         (JSString (if includes (request_url context) "/lorem"
                                    then "ipsum" else "bar")) fields)) w).
Proof.
  intros Hl Hu. unfold MiddlewareDev.first. cbv zeta.
  destruct (includes (request_url context) "/lorem").
  - now rewrite (bind_Normal _ _ _ _ _ (locals_assign_object _ _ _ _ _ Hl)).
  - destruct Hu as [Hu | [-> ->]]; [discriminate|].
    now rewrite (bind_Normal _ _ _ _ _ (locals_assign_object _ _ _ _ _ Hl)).
Qed.

(** X17: the chain stops at [first] for a URL that contains [/rewrite] or
    [/broken-500] and not [/lorem]: the answer is the hook's own response (the
    rewritten page, or a bodiless 500), the world is untouched, and neither
    the later hooks nor [next] run. *)
Theorem chain_short_circuits (context : APIContext) (next : M (option R)) (w : World) :
  includes (request_url context) "/lorem" = false ->
  (includes (request_url context) "/rewrite" = true ->
   MiddlewareDev.chain context next w
   = (w, Normal (Some (from_response MiddlewareDev.rewritten))))
  /\ (includes (request_url context) "/rewrite" = false ->
      includes (request_url context) "/broken-500" = true ->
      MiddlewareDev.chain context next w
      = (w, Normal (Some (from_response (bodiless 500 "" []))))).
Proof.
  intros Hl. unfold MiddlewareDev.chain, MiddlewareDev.sequence. cbn [fold_right].
  unfold MiddlewareDev.first. cbv zeta. rewrite Hl. split.
  - now intros ->.
  - now intros -> ->.
Qed.


(** X19: for a URL that contains [/redirect] (and not [/second]) the chain
    answers with [context.redirect('/', 302)] without calling [next], after
    [first] has named the locals; the redirect it answers with is one that
    [throwIfRedirectNotAllowed] rejects unless the output is ['server']. *)
Theorem chain_redirects (context : APIContext) (next : M (option R))
    (fields : list (string * JSValue)) (output : string) (w : World) :
  locals_get context w = (w, Normal (JSObject fields)) ->
  includes (request_url context) "/lorem" = true
  \/ (includes (request_url context) "/rewrite" = false
      /\ includes (request_url context) "/broken-500" = false) ->
  includes (request_url context) "/second" = false ->
  includes (request_url context) "/redirect" = true ->
  exists w',
    MiddlewareDev.chain context next w
    = (w', Normal (Some (from_response (bodiless 302 "" [("location", "/")]))))
    /\ locals_get context w'
       = (w', Normal (JSObject (set_field "name"
                                  (JSString (MiddlewareDev.name_for (request_url context)))
                                  fields)))
    /\ (output <> "server" ->
        throwIfRedirectNotAllowed (bodiless 302 "" [("location", "/")]) output w'
        = (w', Throw (AstroError StaticRedirectNotAvailable))).
Proof.
  intros Hl H1 Hs Hr.
  unfold MiddlewareDev.chain, MiddlewareDev.sequence. cbn [fold_right].
  rewrite (first_continues _ _ _ _ Hl H1).
  unfold MiddlewareDev.second, MiddlewareDev.name_for. cbv zeta. rewrite Hs, Hr.
  eexists. split; [reflexivity|]. split; [apply locals_get_with_locals|].
  intros Ho. apply throwIfRedirectNotAllowed_iff_helper; [simpl; lia | exact Ho].
Qed.

(** X20: [first] needs locals that are an object: with [null] or
    [undefined] in their place it throws a [TypeError] where it would name
    them, and [next] does not run.  Since the setter of [context.locals] lets
    [null] through, [context.locals = null] followed by the hook fails so. *)
Theorem first_fails_without_locals_object (context : APIContext) (next : M (option R))
    (w : World) :
  includes (request_url context) "/lorem" = true
  \/ (includes (request_url context) "/rewrite" = false
      /\ includes (request_url context) "/broken-500" = false) ->
  (forall l, locals_get context w = (w, Normal l) ->
             l = JSUndefined \/ l = JSNull ->
             exists m, MiddlewareDev.first context next w = (w, Throw (TypeError m)))
  /\ exists w' m,
      (let* _ := locals_set context JSNull in MiddlewareDev.first context next) w
      = (w', Throw (TypeError m)).
Proof.
  intros Hu.
  assert (forall w0 l, locals_get context w0 = (w0, Normal l) ->
                       l = JSUndefined \/ l = JSNull ->
                       exists m, MiddlewareDev.first context next w0
                                 = (w0, Throw (TypeError m))) as Hfail.
  { intros w0 l Hl Hn. unfold MiddlewareDev.first. cbv zeta.
    destruct (includes (request_url context) "/lorem").
    - destruct (locals_assign_nullish context "name" (JSString "ipsum") l w0 Hl Hn)
        as [m Hm].
      exists m. now rewrite (bind_Throw _ _ _ _ _ Hm).
    - destruct Hu as [Hu | [-> ->]]; [discriminate|].
      destruct (locals_assign_nullish context "name" (JSString "bar") l w0 Hl Hn)
        as [m Hm].
      exists m. now rewrite (bind_Throw _ _ _ _ _ Hm). }
  split; [exact (Hfail w)|].
  destruct (Hfail (with_locals (ctx_request context) JSNull w) JSNull
              (locals_get_with_locals _ _ _)) as [m Hm]; [now right|].
  exists (with_locals (ctx_request context) JSNull w), m.
  erewrite bind_Normal by reflexivity. exact Hm.
Qed.

End HandlerProperties.

Section ThirdProperties.
Context `{Collaborators}.

(** X21: for a URL that contains [/broken-locals], [third] replaces the
    locals by an object that holds a function (the setter accepts it) and
    calls [next]; when [next] is the continuation that [call] hands to the
    runner, this throws [LocalsNotSerializable] in ['development'] mode if
    the object is not serializable, and returns the response in any other
    mode. *)
Theorem third_breaks_locals (env : Environment) (ctx : RenderContext)
    (context : APIContext) (preliminary : EndpointValue) (w : World) :
  includes (request_url context) "/broken-locals" = true ->
  isValueSerializable MiddlewareDev.broken_locals = false ->
  (env_mode env = "development" ->
   MiddlewareDev.third context
     (let* v := call_responseFunction env ctx context preliminary in ret (Some v)) w
   = (with_locals (ctx_request context) MiddlewareDev.broken_locals w,
      Throw (AstroError (LocalsNotSerializable (rc_pathname ctx)))))
  /\ (env_mode env <> "development" ->
      MiddlewareDev.third context
        (let* v := call_responseFunction env ctx context preliminary in ret (Some v)) w
      = (with_locals (ctx_request context) MiddlewareDev.broken_locals w,
         Normal (Some preliminary))).
Proof.
  intros Hu Hs. unfold MiddlewareDev.third. cbv zeta. rewrite Hu.
  assert (locals_set context MiddlewareDev.broken_locals w
          = (with_locals (ctx_request context) MiddlewareDev.broken_locals w, Normal tt))
    as Hset by reflexivity.
  rewrite (bind_Normal _ _ _ _ _ Hset). split; intros Hm.
  - erewrite bind_Throw; [reflexivity|].
    rewrite (call_responseFunction_development _ _ _ _ _ _ Hm
               (locals_get_with_locals _ _ _)).
    now rewrite Hs.
  - erewrite bind_Normal; [reflexivity|].
    now apply call_responseFunction_production.
Qed.

End ThirdProperties.

Lemma chain_short_circuits_witness :
  @MiddlewareDev.chain Response _ (DevSite.context "/rewrite")
    (throw (Error "the page was rendered")) Fixture.fresh
  = (Fixture.fresh, Normal (Some MiddlewareDev.rewritten)).
Proof.
  exact (proj1 (chain_short_circuits (R := Response) (DevSite.context "/rewrite")
                  (throw (Error "the page was rendered")) Fixture.fresh eq_refl)
           eq_refl).
Defined.


Lemma chain_redirects_witness :
  exists w,
    @MiddlewareDev.chain Response _ (DevSite.context "/redirect")
      (throw (Error "the page was rendered")) (DevSite.started "/redirect")
    = (w, Normal (Some (bodiless 302 "" [("location", "/")])))
    /\ throwIfRedirectNotAllowed (bodiless 302 "" [("location", "/")]) "static" w
       = (w, Throw (AstroError StaticRedirectNotAvailable)).
Proof.
  destruct (chain_redirects (R := Response) (DevSite.context "/redirect")
              (throw (Error "the page was rendered")) [] "static"
              (DevSite.started "/redirect") eq_refl)
    as (w' & Hchain & _ & Hguard);
    [now right | reflexivity | reflexivity |].
  exists w'. split; [exact Hchain | apply Hguard; discriminate].
Defined.

Lemma first_fails_without_locals_object_witness :
  exists m,
    @MiddlewareDev.first Response _ (DevSite.context "/") (ret None) Fixture.fresh
    = (Fixture.fresh, Throw (TypeError m)).
Proof.
  destruct (first_fails_without_locals_object (R := Response) (DevSite.context "/")
              (ret None)
              Fixture.fresh) as [Hfail _]; [now right|].
  apply (Hfail JSUndefined); [reflexivity | now left].
Defined.

Lemma third_breaks_locals_witness :
  snd (MiddlewareDev.third (DevSite.context "/broken-locals")
         (let* v := call_responseFunction (Fixture.environment "development")
                      (Fixture.render_context "/broken-locals")
                      (DevSite.context "/broken-locals")
                      (EVResponse (Fixture.empty_response [])) in
          ret (Some v))
         Fixture.fresh)
  = Throw (AstroError (LocalsNotSerializable "/broken-locals")).
Proof.
  destruct (third_breaks_locals (Fixture.environment "development")
              (Fixture.render_context "/broken-locals")
              (DevSite.context "/broken-locals")
              (EVResponse (Fixture.empty_response [])) Fixture.fresh)
    as [Hdev _]; [reflexivity | reflexivity |].
  now rewrite (Hdev eq_refl).
Defined.

(** ** The Markdoc integration *)

Lemma split_on_length (c : ascii) (s : string) :
  length (split_on c s) = S (count_char c s).
Proof.
  induction s as [|a s IH]; [reflexivity|].
  cbn [split_on count_char]. destruct (Ascii.eqb a c).
  - cbn. now rewrite IH.
  - destruct (split_on c s) as [|p ps]; [discriminate IH|]. exact IH.
Qed.

Lemma is_reported_spec (e : ValidateError) :
  is_reported e = true <->
  error_id e <> "variable-undefined"
  /\ (error_level e = "error" \/ error_level e = "critical").
Proof.
  unfold is_reported.
  rewrite andb_true_iff, negb_true_iff, orb_true_iff, bool_decide_eq_false,
    !bool_decide_eq_true.
  reflexivity.
Qed.

Lemma filter_unreported (l : list ValidateError) :
  Forall (fun e => is_reported e = false) l -> List.filter is_reported l = [].
Proof.
  induction 1 as [|e l He _ IH]; [reflexivity|]. cbn. now rewrite He.
Qed.

Lemma filter_is_reported_idempotent (l : list ValidateError) :
  List.filter is_reported (List.filter is_reported l) = List.filter is_reported l.
Proof.
  induction l as [|e l IH]; [reflexivity|]. cbn.
  destruct (is_reported e) eqn:E; [|exact IH]. cbn. now rewrite E, IH.
Qed.

(** X22: [getRenderModule] throws its validation error exactly when
    [Markdoc.validate] reports some problem whose id is not
    [variable-undefined] and whose level is [error] or [critical]; warnings
    and undefined variables alone never stop it. *)
Theorem getRenderModule_validation_throws_iff
    (collection id rawData viteId : string) (validated : list ValidateError) :
  (exists err,
     getRenderModule_validation collection id rawData viteId validated = inl err)
  <->
  (exists e, In e validated
             /\ error_id e <> "variable-undefined"
             /\ (error_level e = "error" \/ error_level e = "critical")).
Proof.
  unfold getRenderModule_validation. split.
  - intros [err E].
    destruct (List.filter is_reported validated) as [|e0 l] eqn:F; [discriminate|].
    assert (Hin : In e0 (List.filter is_reported validated)) by (rewrite F; now left).
    apply List.filter_In in Hin as [Hin Hrep].
    exists e0. split; [exact Hin|]. now apply is_reported_spec.
  - intros (e & Hin & Hrep). apply is_reported_spec in Hrep.
    assert (Hf : In e (List.filter is_reported validated))
      by (apply List.filter_In; now split).
    destruct (List.filter is_reported validated); [contradiction|].
    eexists; reflexivity.
Qed.

(** X23: the error that [getRenderModule] throws points into the file it was
    given, at the first line of the first reported problem, moved down by
    the number of line feeds in the raw frontmatter plus three (the lines of
    the frontmatter and its two fences); problems before it that are not
    reported do not count. *)
Theorem getRenderModule_validation_location
    (collection id rawData viteId : string)
    (ignored : list ValidateError) (e0 : ValidateError) (rest : list ValidateError) :
  Forall (fun e => is_reported e = false) ignored ->
  is_reported e0 = true ->
  exists err,
    getRenderModule_validation collection id rawData viteId (ignored ++ e0 :: rest)%list
      = inl err
    /\ md_file err = viteId
    /\ md_line err =
         option_map (fun l => (count_char line_feed rawData + 3 + l)%nat)
                    (head (error_lines e0)).
Proof.
  intros Hign He0. unfold getRenderModule_validation.
  rewrite List.filter_app, (filter_unreported _ Hign). cbn [List.filter app].
  rewrite He0. eexists. split; [reflexivity|]. split; [reflexivity|].
  cbn [md_line]. rewrite split_on_length.
  destruct (head (error_lines e0)); cbn; [f_equal; lia | reflexivity].
Qed.

Lemma getRenderModule_validation_location_witness :
  exists err,
    getRenderModule_validation "blog" "post.mdoc" Doc.rawData "/site/src/content/blog/post.mdoc" Doc.validated = inl err
    /\ md_file err = "/site/src/content/blog/post.mdoc"
    /\ md_line err = Some 8%nat.
Proof.
  apply (getRenderModule_validation_location "blog" "post.mdoc" Doc.rawData "/site/src/content/blog/post.mdoc"
           Doc.unreported Doc.undefined_tag []).
  - repeat constructor.
  - reflexivity.
Defined.

(** X24: problems that are not reported have no part in the outcome of the
    validation step: leaving them out of what [Markdoc.validate] returned
    gives the same result, the same message and the same line. *)
Theorem getRenderModule_validation_ignores_unreported
    (collection id rawData viteId : string) (validated : list ValidateError) :
  getRenderModule_validation collection id rawData viteId validated =
  getRenderModule_validation collection id rawData viteId
    (List.filter is_reported validated).
Proof.
  unfold getRenderModule_validation.
  now rewrite filter_is_reported_idempotent.
Qed.

Lemma Node_ind_nested (P : Node -> Prop) :
  (forall t attrs kids, Forall P kids -> P (mkNode t attrs kids)) ->
  forall n, P n.
Proof.
  intros Hstep. fix IH 1. intros [t attrs kids]. apply Hstep.
  induction kids as [|k kids IHk]; constructor; [apply IH | exact IHk].
Qed.

Section ImageFacts.
Context `{ImageCollaborators}.

Lemma for_each_cons {A B} (turn : A -> M B) (x : A) (rest : list A) :
  for_each turn (x :: rest) =
  (let* x' := turn x in
   let* rest' := for_each turn rest in
   ret (x' :: rest')).
Proof. reflexivity. Qed.

Lemma for_each_unchanged {A} (turn : A -> M A) (items : list A) :
  Forall (fun x => forall w, turn x w = (w, Normal x)) items ->
  forall w, for_each turn items w = (w, Normal items).
Proof.
  induction 1 as [|x rest Hx _ IH]; intros w; [reflexivity|].
  rewrite for_each_cons.
  rewrite (bind_Normal _ _ w w x (Hx w)).
  now rewrite (bind_Normal _ _ w w rest (IH w)).
Qed.

Lemma for_each_related {A B} (turn : A -> M B) (R : A -> B -> Prop)
    (items : list A) :
  Forall (fun x => forall w w' y, turn x w = (w', Normal y) -> R x y) items ->
  forall w w' items', for_each turn items w = (w', Normal items') ->
                      Forall2 R items items'.
Proof.
  induction 1 as [|x rest Hx _ IH]; intros w w' items' E.
  - injection E as _ <-. constructor.
  - rewrite for_each_cons in E. unfold bind at 1 in E.
    destruct (turn x w) as [w1 [y| |]] eqn:Ex; try discriminate.
    unfold bind at 1 in E.
    destruct (for_each turn rest w1) as [w2 [ys| |]] eqn:Er; try discriminate.
    injection E as _ <-. constructor; [now apply (Hx w w1) | now apply (IH w1 w2)].
Qed.

Lemma emitOptimizedImages_node_unchanged (filePath : string) (n : Node) :
  has_image_to_optimize n = false ->
  forall w, emitOptimizedImages_node filePath n w = (w, Normal n).
Proof.
  induction n as [t attrs kids IH] using Node_ind_nested. intros Hno w.
  cbn [has_image_to_optimize] in Hno. apply orb_false_iff in Hno as [Himg Hkids].
  cbn [emitOptimizedImages_node].
  destruct (image_to_optimize (mkNode t attrs kids)); [discriminate|].
  rewrite (bind_Normal _ _ w w attrs eq_refl).
  rewrite (bind_Normal _ _ w w kids); [reflexivity|].
  apply for_each_unchanged.
  rewrite List.Forall_forall in IH |- *. intros k Hk. apply IH; [exact Hk|].
  rewrite <- not_true_iff_false, existsb_exists in Hkids.
  apply not_true_iff_false. intros Hyes. apply Hkids. exists k.
  split; [exact Hk | exact Hyes].
Qed.

Lemma optimize_image_sets (filePath src : string) (attrs attrs' : list (string * JSValue))
    (w w' : World) :
  optimize_image filePath src attrs w = (w', Normal attrs') ->
  exists v, attrs' = set_field "__optimizedSrc" v attrs.
Proof.
  unfold optimize_image, bind. intros E.
  destruct (resolve src filePath w) as [w1 [[[|c id]|]| |]]; try discriminate.
  destruct (existsSync (String c id) w1) as [w2 [[|]| |]]; try discriminate.
  destruct (emitESMImage (String c id) w2) as [w3 [v| |]]; try discriminate.
  injection E as _ <-. now exists v.
Qed.

Lemma emitOptimizedImages_node_optimized (filePath : string) (n : Node) :
  forall w w' n', emitOptimizedImages_node filePath n w = (w', Normal n') ->
                  optimized n n'.
Proof.
  induction n as [t attrs kids IH] using Node_ind_nested. intros w w' n' E.
  cbn [emitOptimizedImages_node] in E. unfold bind at 1 in E.
  destruct (match image_to_optimize (mkNode t attrs kids) with
            | Some src => optimize_image filePath src attrs
            | None => ret attrs
            end w) as [w1 [attrs'| |]] eqn:Ea; try discriminate.
  unfold bind at 1 in E.
  destruct (for_each (emitOptimizedImages_node filePath) kids w1)
    as [w2 [kids'| |]] eqn:Ek; try discriminate.
  injection E as _ <-. constructor.
  - destruct (image_to_optimize (mkNode t attrs kids)) as [src|] eqn:Ei.
    + right. split; [discriminate|]. exact (optimize_image_sets _ _ _ _ _ _ Ea).
    + left. now injection Ea.
  - exact (for_each_related _ optimized kids IH w1 w2 kids' Ek).
Qed.



(** X25: on a tree in which no node is an [image] with a string [src] that
    [shouldOptimizeImage] accepts, [emitOptimizedImages] completes, changes
    no node, and leaves the world as it found it, whatever the bundler, the
    file system and the image service would do: none of them is called. *)
Theorem emitOptimizedImages_nothing_to_optimize
    (filePath : string) (nodeChildren : list Node) (w : World) :
  existsb has_image_to_optimize nodeChildren = false ->
  emitOptimizedImages filePath nodeChildren w = (w, Normal nodeChildren).
Proof.
  intros Hno. unfold emitOptimizedImages. apply for_each_unchanged.
  apply List.Forall_forall. intros n Hn. apply emitOptimizedImages_node_unchanged.
  apply not_true_iff_false. intros Hyes.
  rewrite <- not_true_iff_false, existsb_exists in Hno. apply Hno.
  exists n. split; [exact Hn | exact Hyes].
Qed.

(** X26: when [emitOptimizedImages] completes, the tree has the shape it
    had: every node keeps its type and its children in order, and its
    attributes are untouched unless it is an image that the loop optimizes,
    in which case only [__optimizedSrc] is written. *)
Theorem emitOptimizedImages_optimized
    (filePath : string) (nodeChildren nodeChildren' : list Node) (w w' : World) :
  emitOptimizedImages filePath nodeChildren w = (w', Normal nodeChildren') ->
  Forall2 optimized nodeChildren nodeChildren'.
Proof.
  unfold emitOptimizedImages.
  apply (for_each_related _ optimized).
  apply List.Forall_forall. intros n _ w0 w1 n'.
  apply emitOptimizedImages_node_optimized.
Qed.



End ImageFacts.

Lemma emitOptimizedImages_nothing_to_optimize_witness :
  @emitOptimizedImages Doc.collaborators "/site/src/content/blog/post.mdoc"
    [Doc.paragraph [Doc.image "/cat.png"; Doc.image "https://example.com/cat.png"]]
    Fixture.fresh
  = (Fixture.fresh,
     Normal [Doc.paragraph [Doc.image "/cat.png"; Doc.image "https://example.com/cat.png"]]).
Proof.
  apply (@emitOptimizedImages_nothing_to_optimize Doc.collaborators). reflexivity.
Defined.

Lemma emitOptimizedImages_optimized_witness :
  Forall2 (@optimized Doc.collaborators)
    [Doc.paragraph [Doc.image "./cat.png"]; Doc.image "/cat.png"]
    [Doc.paragraph
       [mkNode "image"
          [("src", JSString "./cat.png"); ("alt", JSString "a cat");
           ("__optimizedSrc", JSObject [("src", JSString "/_astro/cat.hash.png")])] []];
     Doc.image "/cat.png"].
Proof.
  apply (@emitOptimizedImages_optimized Doc.collaborators
           "/site/src/content/blog/post.mdoc" _ _ Fixture.fresh Fixture.fresh).
  reflexivity.
Defined.


